(** * FinAgents: the sequential multi-stage orchestration engine

    A shallow embedding of the orchestration core of [fin_agents.py]:
    the [FinanceState] record threaded through the pipeline, the four
    specialist nodes, the coordinator node, the workflow graph built by
    [create_workflow] and the entry point [get_financial_advice].

    The state is a Python dict, modelled as a [gmap string string].
    The external collaborators (the four ReAct agents and the chat model
    [llm]) are an oracle [World] that may answer or raise, and may depend
    on everything observed so far.  Every effect of the code (prints,
    calls, item assignments) is recorded in a trace of [Event]s. *)

From Stdlib Require Import String Ascii List ZArith DecimalString.
From stdpp Require Import base option list strings gmap fin_maps.
Import ListNotations.

Local Open Scope string_scope.
Local Open Scope list_scope.

(** ** Strings *)

(** The line feed of the source's triple-quoted literal. *)
Definition NL : string := String (ascii_of_nat 10) EmptyString.

(** Python's [s * n] on strings. *)
Fixpoint str_mul (s : string) (n : nat) : string :=
  match n with
  | O => EmptyString
  | S n' => s +:+ str_mul s n'
  end.

(** [substring_of s t]: [s] occurs in [t] as a contiguous block. *)
Definition substring_of (s t : string) : Prop :=
  exists pre post : string, t = pre +:+ s +:+ post.

(** ** Messages, configurations, exceptions *)

(** langchain_core.messages: only the [content] attribute is used. *)
Inductive Message : Type :=
  | HumanMessage (c : string)
  | AIMessage (c : string)
  | SystemMessage (c : string).

Definition content (m : Message) : string :=
  match m with
  | HumanMessage c | AIMessage c | SystemMessage c => c
  end.

(** [{"configurable": {"thread_id": t}}] *)
Record Config : Type := mkConfig { thread_id : string }.

(** The exceptions that can cross the engine. *)
Inductive exn : Type :=
  | KeyError (key : string)
  | IndexError
  | GraphRecursionError
  | GraphValueError (what : string)
  | ExternalError (msg : string).

Inductive result (A : Type) : Type :=
  | Ok (a : A)
  | Raise (e : exn).
Arguments Ok {A} a.
Arguments Raise {A} e.

Definition is_ok {A} (r : result A) : bool :=
  match r with Ok _ => true | Raise _ => false end.

(** The four agents created by [setup_agents]. *)
Inductive Agent : Type :=
  | portfolio_agent
  | budget_agent
  | market_research_agent
  | risk_assessment_agent.

#[global] Instance Agent_eq_dec : EqDecision Agent.
Proof. solve_decision. Defined.

(** ** Observable events *)

Inductive Event : Type :=
  | EPrint (text : string)
  | ENode (name : string)
  | EAgentInvoke (a : Agent) (input : list Message) (cfg : Config)
                 (reply : result (list Message))
  | ELlmInvoke (input : list Message) (cfg : option Config)
               (reply : result Message)
  | ESetItem (key value : string).

(** The external collaborators.  Each answer may depend on the history of
    events observed so far, so an agent that keeps its own memory, or one
    that answers differently every time, is covered. *)
Record World : Type := mkWorld {
  agent_reply : Agent -> list Event -> list Message -> Config ->
                result (list Message);
  llm_reply : list Event -> list Message -> result Message
}.

(** ** The effect monad: exceptions and an event trace

    A computation receives the history so far and returns its result
    together with the events it emitted itself. *)
Definition M (A : Type) : Type := list Event -> result A * list Event.

Definition ret {A} (a : A) : M A := fun _ => (Ok a, []).

Definition raise {A} (e : exn) : M A := fun _ => (Raise e, []).

Definition bind {A B} (m : M A) (f : A -> M B) : M B :=
  fun h =>
    match m h with
    | (Ok a, t1) =>
        match f a (h ++ t1) with
        | (r, t2) => (r, t1 ++ t2)
        end
    | (Raise e, t1) => (Raise e, t1)
    end.

Definition emit (e : Event) : M unit := fun _ => (Ok tt, [e]).

Declare Scope m_scope.
Delimit Scope m_scope with M.
Notation "x <- c1 ;; c2" := (bind c1 (fun x => c2))
  (at level 100, c1 at next level, right associativity) : m_scope.
Notation "c1 ;; c2" := (bind c1 (fun _ => c2))
  (at level 100, right associativity) : m_scope.
Local Open Scope m_scope.

(** [print(text)] *)
Definition print (text : string) : M unit := emit (EPrint text).

(** [agent.invoke({"messages": input}, cfg)], yielding [response["messages"]]. *)
Definition invoke_agent (w : World) (a : Agent) (input : list Message)
    (cfg : Config) : M (list Message) :=
  fun h =>
    let r := agent_reply w a h input cfg in
    (r, [EAgentInvoke a input cfg r]).

(** [llm.invoke(input)]: no configuration is passed. *)
Definition invoke_llm (w : World) (input : list Message) : M Message :=
  fun h =>
    let r := llm_reply w h input in
    (r, [ELlmInvoke input None r]).

(** ** The shared state record *)

Abbreviation FinanceState := (gmap string string).

(** [state[key]] *)
Definition getitem (st : FinanceState) (key : string) : M string :=
  match st !! key with
  | Some v => ret v
  | None => raise (KeyError key)
  end.

(** [state.get(key, default)] *)
Definition get (st : FinanceState) (key default : string) : string :=
  match st !! key with
  | Some v => v
  | None => default
  end.

(** [state[key] = value] *)
Definition setitem (st : FinanceState) (key value : string) : M FinanceState :=
  emit (ESetItem key value) ;; ret (<[key := value]> st).

(** [messages[-1]] *)
Definition last_item (msgs : list Message) : M Message :=
  match last msgs with
  | Some m => ret m
  | None => raise IndexError
  end.

(** ** The specialist nodes *)

Definition portfolio_analysis_node (w : World) (state : FinanceState)
    : M FinanceState :=
  print "📊 Portfolio Analyst working..." ;;
  let config := mkConfig "portfolio_agent" in
  q <- getitem state "query" ;;
  response <- invoke_agent w portfolio_agent
                [HumanMessage ("Analyze this request: " +:+ q)] config ;;
  m <- last_item response ;;
  setitem state "portfolio_analysis" (content m).

Definition budget_analysis_node (w : World) (state : FinanceState)
    : M FinanceState :=
  print "💰 Budget Planner working..." ;;
  let config := mkConfig "budget_agent" in
  q <- getitem state "query" ;;
  response <- invoke_agent w budget_agent
                [HumanMessage ("Analyze this request: " +:+ q)] config ;;
  m <- last_item response ;;
  setitem state "budget_analysis" (content m).

Definition market_research_node (w : World) (state : FinanceState)
    : M FinanceState :=
  print "📈 Market Researcher working..." ;;
  let config := mkConfig "market_agent" in
  q <- getitem state "query" ;;
  response <- invoke_agent w market_research_agent
                [HumanMessage ("Research this request: " +:+ q)] config ;;
  m <- last_item response ;;
  setitem state "market_data" (content m).

Definition risk_assessment_node (w : World) (state : FinanceState)
    : M FinanceState :=
  print "⚖️ Risk Assessor working..." ;;
  let config := mkConfig "risk_agent" in
  q <- getitem state "query" ;;
  response <- invoke_agent w risk_assessment_agent
                [HumanMessage ("Assess risks for: " +:+ q)] config ;;
  m <- last_item response ;;
  setitem state "risk_assessment" (content m).

(** ** The coordinator node *)

(** The f-string of [coordinator_node], piece by piece.  Every line of the
    literal is indented by eight blanks; three lines hold only the
    indentation. *)
Definition prompt_head : string :=
  NL +:+
  "        As a senior financial advisor, synthesize the following analyses into a comprehensive recommendation:" +:+ NL +:+
  "        " +:+ NL +:+
  "        Original Query: ".

Definition prompt_portfolio : string :=
  NL +:+
  "        " +:+ NL +:+
  "        Portfolio Analysis: ".

Definition prompt_budget : string := NL +:+ "        Budget Analysis: ".
Definition prompt_market : string := NL +:+ "        Market Research: ".
Definition prompt_risk : string := NL +:+ "        Risk Assessment: ".

Definition prompt_tail : string :=
  NL +:+
  "        " +:+ NL +:+
  "        Provide a clear, actionable financial recommendation with:" +:+ NL +:+
  "        1. Summary of key findings" +:+ NL +:+
  "        2. Specific action steps" +:+ NL +:+
  "        3. Risk considerations" +:+ NL +:+
  "        4. Timeline for implementation" +:+ NL +:+
  "        ".

Definition coordinator_prompt (q p b m r : string) : string :=
  prompt_head +:+ q +:+
  prompt_portfolio +:+ p +:+
  prompt_budget +:+ b +:+
  prompt_market +:+ m +:+
  prompt_risk +:+ r +:+
  prompt_tail.

Definition coordinator_node (w : World) (state : FinanceState)
    : M FinanceState :=
  print "🎯 Financial Coordinator synthesizing recommendations..." ;;
  q <- getitem state "query" ;;
  let prompt :=
    coordinator_prompt q
      (get state "portfolio_analysis" "N/A")
      (get state "budget_analysis" "N/A")
      (get state "market_data" "N/A")
      (get state "risk_assessment" "N/A") in
  response <- invoke_llm w [HumanMessage prompt] ;;
  setitem state "final_recommendation" (content response).

(** ** The workflow graph *)

(** langgraph's [StateGraph]: named nodes, an entry point and directed
    edges.  [END] is the library's terminal pseudo-node.  The graph library
    is not part of the repository: the model follows its contract for
    entry point, edges and [END], and leaves out the checks the library
    itself makes on a graph (for instance on the names given to nodes). *)
Definition END : string := "__end__".

Record StateGraph : Type := mkGraph {
  nodes : list (string * (FinanceState -> M FinanceState));
  entry_point : option string;
  edges : list (string * string)
}.

Definition empty_graph : StateGraph := mkGraph [] None [].

Definition add_node (name : string) (fn : FinanceState -> M FinanceState)
    (g : StateGraph) : StateGraph :=
  mkGraph (nodes g ++ [(name, fn)]) (entry_point g) (edges g).

Definition set_entry_point (name : string) (g : StateGraph) : StateGraph :=
  mkGraph (nodes g) (Some name) (edges g).

Definition add_edge (src dst : string) (g : StateGraph) : StateGraph :=
  mkGraph (nodes g) (entry_point g) (edges g ++ [(src, dst)]).

Definition create_workflow (w : World) : StateGraph :=
  let workflow := empty_graph in
  let workflow := add_node "portfolio_analysis" (portfolio_analysis_node w) workflow in
  let workflow := add_node "budget_analysis" (budget_analysis_node w) workflow in
  let workflow := add_node "market_research" (market_research_node w) workflow in
  let workflow := add_node "risk_assessment" (risk_assessment_node w) workflow in
  let workflow := add_node "coordinator" (coordinator_node w) workflow in
  let workflow := set_entry_point "portfolio_analysis" workflow in
  let workflow := add_edge "portfolio_analysis" "budget_analysis" workflow in
  let workflow := add_edge "budget_analysis" "market_research" workflow in
  let workflow := add_edge "market_research" "risk_assessment" workflow in
  let workflow := add_edge "risk_assessment" "coordinator" workflow in
  let workflow := add_edge "coordinator" END workflow in
  workflow.

(** The node function registered under a name. *)
Fixpoint find_node (name : string)
    (l : list (string * (FinanceState -> M FinanceState)))
    : option (FinanceState -> M FinanceState) :=
  match l with
  | [] => None
  | (n, fn) :: l' => if String.eqb n name then Some fn else find_node name l'
  end.

(** The targets of the edges leaving a node, in the order they were added. *)
Definition successors (g : StateGraph) (name : string) : list string :=
  map snd (filter (fun e => String.eqb (fst e) name = true) (edges g)).

(** The library's default bound on the number of steps of one invocation. *)
Definition recursion_limit : nat := 25.

(** Running a compiled graph.  A node receives the current state and the
    state it returns becomes the current state.  A node with one outgoing
    edge hands over to its target; reaching [END], or a node without an
    outgoing edge, ends the run.  A node with several outgoing edges would
    start a parallel step, which this engine never builds and the model
    rejects.  The run announces each node it starts with [ENode]. *)
Fixpoint run_from (g : StateGraph) (fuel : nat) (cur : string)
    (state : FinanceState) : M FinanceState :=
  if String.eqb cur END then ret state
  else
    match fuel with
    | O => raise GraphRecursionError
    | S fuel' =>
        match find_node cur (nodes g) with
        | None => raise (GraphValueError cur)
        | Some fn =>
            emit (ENode cur) ;;
            state' <- fn state ;;
            match successors g cur with
            | [] => ret state'
            | [next] => run_from g fuel' next state'
            | _ => raise (GraphValueError cur)
            end
        end
    end.

(** [workflow.compile().invoke(state)] *)
Definition invoke (g : StateGraph) (state : FinanceState) : M FinanceState :=
  match entry_point g with
  | None => raise (GraphValueError "entry point")
  | Some start => run_from g recursion_limit start state
  end.

(** ** The entry point *)

Definition initial_state (query : string) : FinanceState :=
  <["final_recommendation" := EmptyString]>
  (<["risk_assessment" := EmptyString]>
  (<["budget_analysis" := EmptyString]>
  (<["portfolio_analysis" := EmptyString]>
  (<["market_data" := EmptyString]>
  (<["user_profiles" := EmptyString]>
  (<["query" := query]> ∅)))))).

(** [get_financial_advice] up to the final state of the graph. *)
Definition final_state_of (w : World) (query : string) : M FinanceState :=
  print ("🏦 Financial Advisory Team analyzing: " +:+ query) ;;
  print (str_mul "=" 60) ;;
  let app := create_workflow w in
  invoke app (initial_state query).

Definition get_financial_advice (w : World) (query : string) : M string :=
  final_state <- final_state_of w query ;;
  getitem final_state "final_recommendation".

(** ** Reading a trace *)

(** The nodes started, in order. *)
Fixpoint stage_order (tr : list Event) : list string :=
  match tr with
  | [] => []
  | ENode n :: tr' => n :: stage_order tr'
  | _ :: tr' => stage_order tr'
  end.

(** The calls made to the chat model. *)
Fixpoint llm_calls (tr : list Event)
    : list (list Message * option Config * result Message) :=
  match tr with
  | [] => []
  | ELlmInvoke i c r :: tr' => (i, c, r) :: llm_calls tr'
  | _ :: tr' => llm_calls tr'
  end.

(** The calls made to the agents. *)
Fixpoint agent_calls (tr : list Event)
    : list (Agent * list Message * Config * result (list Message)) :=
  match tr with
  | [] => []
  | EAgentInvoke a i c r :: tr' => (a, i, c, r) :: agent_calls tr'
  | _ :: tr' => agent_calls tr'
  end.

(** The keys assigned, in order. *)
Fixpoint written_keys (tr : list Event) : list string :=
  match tr with
  | [] => []
  | ESetItem k _ :: tr' => k :: written_keys tr'
  | _ :: tr' => written_keys tr'
  end.

(** The keys assigned while node [S] was the running node; [cur] is the
    node running at the start of [tr]. *)
Fixpoint writes_from (cur : option string) (S : string) (tr : list Event)
    : list string :=
  match tr with
  | [] => []
  | ENode n :: tr' => writes_from (Some n) S tr'
  | ESetItem k _ :: tr' =>
      (if decide (cur = Some S) then [k] else []) ++ writes_from cur S tr'
  | _ :: tr' => writes_from cur S tr'
  end.

Definition writes_by (S : string) (tr : list Event) : list string :=
  writes_from None S tr.

(** The stages of the pipeline and the slot each one owns. *)
Definition stages : list string :=
  ["portfolio_analysis"; "budget_analysis"; "market_research";
   "risk_assessment"; "coordinator"].

Definition own_slot (S : string) : string :=
  if String.eqb S "portfolio_analysis" then "portfolio_analysis"
  else if String.eqb S "budget_analysis" then "budget_analysis"
  else if String.eqb S "market_research" then "market_data"
  else if String.eqb S "risk_assessment" then "risk_assessment"
  else "final_recommendation".

(** A stub world for concrete runs: the four agents answer with one
    message each and the chat model with a fixed text. *)
Definition stub_agent (a : Agent) : list Message :=
  match a with
  | portfolio_agent => [AIMessage "thinking"; AIMessage "P"]
  | budget_agent => [AIMessage "B"]
  | market_research_agent => [HumanMessage "echo"; AIMessage "M"]
  | risk_assessment_agent => [AIMessage "R"]
  end.

Definition stub_world : World :=
  mkWorld (fun a _ _ _ => Ok (stub_agent a))
          (fun _ _ => Ok (AIMessage "ADVICE")).

(** A world whose market researcher raises. *)
Definition market_down_world : World :=
  mkWorld (fun a _ _ _ =>
             match a with
             | market_research_agent => Raise (ExternalError "market down")
             | _ => Ok (stub_agent a)
             end)
          (fun _ _ => Ok (AIMessage "ADVICE")).

(** A world whose budget planner returns an empty message sequence. *)
Definition silent_budget_world : World :=
  mkWorld (fun a _ _ _ =>
             match a with
             | budget_agent => Ok []
             | _ => Ok (stub_agent a)
             end)
          (fun _ _ => Ok (AIMessage "ADVICE")).

Definition sample_query : string :=
  "I'm 25 years old, income 70k, medium risk tolerance".

(** ** The common shape of the four specialist nodes *)

Record StageSpec : Type := mkStage {
  s_name : string;
  s_notice : string;
  s_agent : Agent;
  s_prefix : string;
  s_thread : string;
  s_key : string
}.

Definition specialist_node (w : World) (s : StageSpec) (state : FinanceState)
    : M FinanceState :=
  print (s_notice s) ;;
  let config := mkConfig (s_thread s) in
  q <- getitem state "query" ;;
  response <- invoke_agent w (s_agent s)
                [HumanMessage (s_prefix s +:+ q)] config ;;
  m <- last_item response ;;
  setitem state (s_key s) (content m).

Definition portfolio_stage : StageSpec :=
  mkStage "portfolio_analysis" "📊 Portfolio Analyst working..."
          portfolio_agent "Analyze this request: " "portfolio_agent"
          "portfolio_analysis".

Definition budget_stage : StageSpec :=
  mkStage "budget_analysis" "💰 Budget Planner working..."
          budget_agent "Analyze this request: " "budget_agent"
          "budget_analysis".

Definition market_stage : StageSpec :=
  mkStage "market_research" "📈 Market Researcher working..."
          market_research_agent "Research this request: " "market_agent"
          "market_data".

Definition risk_stage : StageSpec :=
  mkStage "risk_assessment" "⚖️ Risk Assessor working..."
          risk_assessment_agent "Assess risks for: " "risk_agent"
          "risk_assessment".

(** The specialist stage registered under each agent. *)
Definition stage_of (a : Agent) : StageSpec :=
  match a with
  | portfolio_agent => portfolio_stage
  | budget_agent => budget_stage
  | market_research_agent => market_stage
  | risk_assessment_agent => risk_stage
  end.

(** The node function of each agent's stage, as written in the source. *)
Definition node_of (w : World) (a : Agent) : FinanceState -> M FinanceState :=
  match a with
  | portfolio_agent => portfolio_analysis_node w
  | budget_agent => budget_analysis_node w
  | market_research_agent => market_research_node w
  | risk_assessment_agent => risk_assessment_node w
  end.

(** The text a stage extracts from its agent's reply. *)
Definition stage_text (r : result (list Message)) : result string :=
  match r with
  | Raise e => Raise e
  | Ok msgs =>
      match last msgs with
      | Some m => Ok (content m)
      | None => Raise IndexError
      end
  end.

(** The events of one specialist node whose agent replied [r]. *)
Definition node_events (s : StageSpec) (q : string)
    (r : result (list Message)) : list Event :=
  [EPrint (s_notice s);
   EAgentInvoke (s_agent s) [HumanMessage (s_prefix s +:+ q)]
                (mkConfig (s_thread s)) r] ++
  match stage_text r with
  | Ok v => [ESetItem (s_key s) v]
  | Raise _ => []
  end.

Definition stage_events (s : StageSpec) (q : string)
    (r : result (list Message)) : list Event :=
  ENode (s_name s) :: node_events s q r.

Definition run_banner (q : string) : list Event :=
  [EPrint ("🏦 Financial Advisory Team analyzing: " +:+ q);
   EPrint (str_mul "=" 60)].

Definition coordinator_events (prompt : string) (rl : result Message)
    : list Event :=
  [EPrint "🎯 Financial Coordinator synthesizing recommendations...";
   ELlmInvoke [HumanMessage prompt] None rl] ++
  match rl with
  | Ok resp => [ESetItem "final_recommendation" (content resp)]
  | Raise _ => []
  end.

(** The outcome of the graph's run on the initial state, given what the
    five collaborators replied: the final state (or the exception) and the
    trace. *)
Definition pipeline_outcome (q : string) (r1 r2 r3 r4 : result (list Message))
    (rl : result Message) : result FinanceState * list Event :=
  let t1 := stage_events portfolio_stage q r1 in
  let t2 := stage_events budget_stage q r2 in
  let t3 := stage_events market_stage q r3 in
  let t4 := stage_events risk_stage q r4 in
  match stage_text r1 with
  | Raise e => (Raise e, t1)
  | Ok p =>
  match stage_text r2 with
  | Raise e => (Raise e, t1 ++ t2)
  | Ok b =>
  match stage_text r3 with
  | Raise e => (Raise e, t1 ++ t2 ++ t3)
  | Ok m =>
  match stage_text r4 with
  | Raise e => (Raise e, t1 ++ t2 ++ t3 ++ t4)
  | Ok r =>
      let st4 :=
        <["risk_assessment" := r]>
        (<["market_data" := m]>
        (<["budget_analysis" := b]>
        (<["portfolio_analysis" := p]> (initial_state q)))) in
      let t5 := ENode "coordinator" ::
                coordinator_events (coordinator_prompt q p b m r) rl in
      (match rl with
       | Ok resp => Ok (<["final_recommendation" := content resp]> st4)
       | Raise e => Raise e
       end, t1 ++ t2 ++ t3 ++ t4 ++ t5)
  end end end end.

Definition final_outcome (q : string) (r1 r2 r3 r4 : result (list Message))
    (rl : result Message) : result FinanceState * list Event :=
  (fst (pipeline_outcome q r1 r2 r3 r4 rl),
   run_banner q ++ snd (pipeline_outcome q r1 r2 r3 r4 rl)).

(** What [get_financial_advice] returns from the final state. *)
Definition advice_of (r : result FinanceState) : result string :=
  match r with
  | Ok st =>
      match st !! "final_recommendation" with
      | Some v => Ok v
      | None => Raise (KeyError "final_recommendation")
      end
  | Raise e => Raise e
  end.

(** ** Definitions used to state the properties *)

(** The run of the compiled workflow, written out. *)
Definition pipeline (w : World) (state : FinanceState) : M FinanceState :=
  emit (ENode "portfolio_analysis") ;;
  st1 <- portfolio_analysis_node w state ;;
  emit (ENode "budget_analysis") ;;
  st2 <- budget_analysis_node w st1 ;;
  emit (ENode "market_research") ;;
  st3 <- market_research_node w st2 ;;
  emit (ENode "risk_assessment") ;;
  st4 <- risk_assessment_node w st3 ;;
  emit (ENode "coordinator") ;;
  st5 <- coordinator_node w st4 ;;
  ret st5.

(** The reply an agent gives when its stage starts after history [h]. *)
Definition reply_at (w : World) (a : Agent) (q : string) (h : list Event)
    : result (list Message) :=
  let s := stage_of a in
  agent_reply w (s_agent s)
    ((h ++ [ENode (s_name s)]) ++ [EPrint (s_notice s)])
    [HumanMessage (s_prefix s +:+ q)] (mkConfig (s_thread s)).

(** [f] applied under [Ok]. *)
Definition result_map {A B} (f : A -> B) (r : result A) : result B :=
  match r with
  | Ok a => Ok (f a)
  | Raise e => Raise e
  end.

(** The prompt the coordinator sends on a state, if it sends one. *)
Definition prompt_sent (w : World) (st : FinanceState) (h : list Event)
    : option string :=
  match llm_calls (snd (coordinator_node w st h)) with
  | [([HumanMessage p], _, _)] => Some p
  | _ => None
  end.

(** A slot that no stage has filled: its key is missing, or it holds the
    empty string (the value it is created with, and the value a stage that
    returned nothing leaves). *)
Definition unpopulated (st : FinanceState) (key : string) : Prop :=
  st !! key = None \/ st !! key = Some EmptyString.

(** The thread identifier each agent is addressed with. *)
Definition handle_of (a : Agent) : string :=
  match a with
  | portfolio_agent => "portfolio_agent"
  | budget_agent => "budget_agent"
  | market_research_agent => "market_agent"
  | risk_assessment_agent => "risk_agent"
  end.

(** The prefix each specialist puts before the query. *)
Definition instruction_prefix (a : Agent) : string :=
  match a with
  | portfolio_agent => "Analyze this request: "
  | budget_agent => "Analyze this request: "
  | market_research_agent => "Research this request: "
  | risk_assessment_agent => "Assess risks for: "
  end.

(** The state the coordinator sees after stages that answered "P", "B",
    "M" and "R". *)
Definition sample_state : FinanceState :=
  <["risk_assessment" := "R"]>
  (<["market_data" := "M"]>
  (<["budget_analysis" := "B"]>
  (<["portfolio_analysis" := "P"]> (initial_state sample_query)))).

(** A record without the [portfolio_analysis] key. *)
Definition partial_state : FinanceState :=
  <["budget_analysis" := "B"]> (<["query" := sample_query]> ∅).

(** A world whose agents all answer with an empty text. *)
Definition empty_text_world : World :=
  mkWorld (fun _ _ _ _ => Ok [AIMessage EmptyString])
          (fun _ _ => Ok (AIMessage "ADVICE")).

(** ** Further sample worlds *)

(** A world whose chat model raises. *)
Definition llm_down_world : World :=
  mkWorld (fun a _ _ _ => Ok (stub_agent a))
          (fun _ _ => Raise (ExternalError "rate limit")).

(** ** The command-line driver *)

(** Python's [str.strip], [str.lower], [str.upper] and [str.title].  They
    work on code points and follow the Unicode tables; the code is modelled
    for any functions in their place. *)
Record StrOps : Type := mkStrOps {
  str_strip : string -> string;
  str_lower : string -> string;
  str_upper : string -> string;
  str_title : string -> string
}.

(** What one call of [input] gives: a line, or [KeyboardInterrupt], or
    [EOFError].  An interrupt is modelled where the program waits for
    input, not in the middle of a run of the engine. *)
Inductive Input : Type :=
  | Line (text : string)
  | Interrupt
  | EndOfFile.

(** What the driver does: it prints, it asks for input, and it calls
    [get_financial_advice], whose outcome and events are recorded whole. *)
Inductive DriverEvent : Type :=
  | DPrint (text : string)
  | DInput (prompt : string) (got : Input)
  | DAdvice (query : string) (outcome : result string) (events : list Event).

Inductive LoopStatus : Type :=
  | Exited
  | StillRunning.

(** The next answer of [input]: the script of the session, and
    [EOFError] for ever once it is used up. *)
Definition next_input (script : list Input) : Input * list Input :=
  match script with
  | [] => (EndOfFile, [])
  | item :: rest => (item, rest)
  end.

Definition input_prompt : string :=
  NL +:+ "💬 Financial Question: ".

Definition thanks_notice : string :=
  "👋 Thank you for using the Financial Advisory System!".

Definition blank_notice : string :=
  "Please enter a financial question.".

Definition goodbye_notice : string :=
  NL +:+ "👋 Goodbye!".

(** [print(f"\n📋 Answer:\n{advice}")] *)
Definition answer_notice (advice : string) : string :=
  NL +:+ "📋 Answer:" +:+ NL +:+ advice.

(** [print(f"❌ Error: {e}")] *)
Definition error_notice (msg : string) : string :=
  "❌ Error: " +:+ msg.

(** The text of the [EOFError] that [input] raises. *)
Definition eof_message : string := "EOF when reading a line".

(** The [while True] loop of [main], run for at most [fuel] rounds.
    [show] is [str] on the exceptions of the engine; [h] collects the
    events of the runs made so far, which the collaborators may depend
    on. *)
Fixpoint main_loop (w : World) (so : StrOps) (show : exn -> string)
    (fuel : nat) (script : list Input) (h : list Event)
    : LoopStatus * list DriverEvent :=
  match fuel with
  | O => (StillRunning, [])
  | S fuel' =>
      let (item, rest) := next_input script in
      let asked := DInput input_prompt item in
      match item with
      | Line text =>
          let query := str_strip so text in
          if String.eqb (str_lower so query) "quit" then
            (Exited, [asked; DPrint thanks_notice])
          else if String.eqb query EmptyString then
            let (status, t) := main_loop w so show fuel' rest h in
            (status, asked :: DPrint blank_notice :: t)
          else
            let (outcome, events) := get_financial_advice w query h in
            let report :=
              match outcome with
              | Ok advice =>
                  [DPrint (answer_notice advice); DPrint (str_mul "-" 60)]
              | Raise e => [DPrint (error_notice (show e))]
              end in
            let (status, t) := main_loop w so show fuel' rest (h ++ events) in
            (status, asked :: DAdvice query outcome events :: report ++ t)
      | Interrupt => (Exited, [asked; DPrint goodbye_notice])
      | EndOfFile =>
          let (status, t) := main_loop w so show fuel' rest h in
          (status, asked :: DPrint (error_notice eof_message) :: t)
      end
  end.

(** What [main] prints before it enters the loop. *)
Definition main_banner : list DriverEvent :=
  [DPrint "🏦 Personal Finance Multi-Agent Advisory System";
   DPrint (str_mul "=" 60);
   DPrint "Meet your financial advisory team:";
   DPrint "📊 Portfolio Analyst - Stock analysis & portfolio optimization";
   DPrint "💰 Budget Planner - Personal budgeting & expense tracking";
   DPrint "📈 Market Researcher - Economic trends & market analysis";
   DPrint "⚖️ Risk Assessor - Investment risk & safety planning";
   DPrint "🎯 Financial Coordinator - Synthesizes all recommendations";
   DPrint (str_mul "=" 60);
   DPrint (NL +:+ "Example queries:");
   DPrint "• 'Analyze my portfolio: AAPL,GOOGL,TSLA with amounts 5000,3000,2000'";
   DPrint "• 'Review my budget: income 6000, expenses rent:2000,food:800,transport:400'";
   DPrint "• 'I'm 25 years old, income 70k, medium risk tolerance - what should I invest in?'";
   DPrint "• 'What's the current market outlook?'";
   DPrint (NL +:+ "Type 'quit' to exit");
   DPrint (str_mul "-" 60)].

(** [main], with the loop run for at most [fuel] rounds. *)
Definition main (w : World) (so : StrOps) (show : exn -> string)
    (fuel : nat) (script : list Input) : LoopStatus * list DriverEvent :=
  let (status, t) := main_loop w so show fuel script [] in
  (status, main_banner ++ t).

(** ** Reading the driver's trace *)

(** The answers [input] gave, in order. *)
Fixpoint inputs_read (t : list DriverEvent) : list Input :=
  match t with
  | [] => []
  | DInput _ got :: t' => got :: inputs_read t'
  | _ :: t' => inputs_read t'
  end.

(** The queries the engine was run on, in order. *)
Fixpoint queries_run (t : list DriverEvent) : list string :=
  match t with
  | [] => []
  | DAdvice q _ _ :: t' => q :: queries_run t'
  | _ :: t' => queries_run t'
  end.


(** An answer of [input] that ends the loop: an interrupt, or a line that
    is [quit] once stripped and lower-cased. *)
Definition stops (so : StrOps) (item : Input) : bool :=
  match item with
  | Line text => String.eqb (str_lower so (str_strip so text)) "quit"
  | Interrupt => true
  | EndOfFile => false
  end.

(** Stripping and lower-casing of plain ASCII text, for concrete runs. *)
Definition ascii_lower_char (c : ascii) : ascii :=
  let n := nat_of_ascii c in
  if andb (Nat.leb 65 n) (Nat.leb n 90) then ascii_of_nat (n + 32) else c.

Fixpoint ascii_lower (s : string) : string :=
  match s with
  | EmptyString => EmptyString
  | String c s' => String (ascii_lower_char c) (ascii_lower s')
  end.

Fixpoint strip_left (s : string) : string :=
  match s with
  | String c s' => if Ascii.is_space c then strip_left s' else s
  | EmptyString => EmptyString
  end.

Definition ascii_strip (s : string) : string :=
  String.rev (strip_left (String.rev (strip_left s))).

Definition sample_str_ops : StrOps :=
  mkStrOps ascii_strip ascii_lower (fun s => s) (fun s => s).

Definition sample_show (e : exn) : string :=
  match e with
  | KeyError key => "'" +:+ key +:+ "'"
  | IndexError => "list index out of range"
  | GraphRecursionError => "recursion limit"
  | GraphValueError what => what
  | ExternalError msg => msg
  end.

(** What one round of the loop does on an answer that does not end it:
    the events after the prompt, and the engine history afterwards. *)
Definition round_of (w : World) (so : StrOps) (show : exn -> string)
    (item : Input) (h : list Event) : list Event * list DriverEvent :=
  match item with
  | Line text =>
      let query := str_strip so text in
      if String.eqb query EmptyString then (h, [DPrint blank_notice])
      else
        let (outcome, events) := get_financial_advice w query h in
        (h ++ events,
         DAdvice query outcome events ::
         match outcome with
         | Ok advice =>
             [DPrint (answer_notice advice); DPrint (str_mul "-" 60)]
         | Raise e => [DPrint (error_notice (show e))]
         end)
  | Interrupt => (h, [])
  | EndOfFile => (h, [DPrint (error_notice eof_message)])
  end.

(** One round at the end of the input. *)
Definition eof_round : list DriverEvent :=
  [DInput input_prompt EndOfFile; DPrint (error_notice eof_message)].

(** ** The tools of the agents: Python values *)

(** The outcome of a [try] body: its value, or [str(e)] of the exception
    that the [except Exception as e] clause catches. *)
Inductive attempt (A : Type) : Type :=
  | Done (a : A)
  | Failed (msg : string).
Arguments Done {A} a.
Arguments Failed {A} msg.

Definition and_then {A B} (x : attempt A) (f : A -> attempt B) : attempt B :=
  match x with
  | Done a => f a
  | Failed msg => Failed msg
  end.

Notation "'try!' x := c1 'in' c2" := (and_then c1 (fun x => c2))
  (at level 10, x name, c1 at level 100, c2 at level 200).

(** [str] of an [int]. *)
Definition str_of_int (z : Z) : string :=
  NilZero.string_of_int (Z.to_int z).

(** [int] of a string made of an optional minus sign and decimal digits,
    the only strings the code passes to it; anything else is its
    [ValueError]. *)
Definition int_of_digits (s : string) : attempt Z :=
  match NilZero.int_of_string s with
  | Some d => Done (Z.of_int d)
  | None =>
      Failed ("invalid literal for int() with base 10: '" +:+ s +:+ "'")
  end.

(** [s.split(sep)] for a separator of one character. *)
Fixpoint split_on (sep : ascii) (s : string) : list string :=
  match s with
  | EmptyString => [EmptyString]
  | String c s' =>
      if Ascii.eqb c sep then EmptyString :: split_on sep s'
      else
        match split_on sep s' with
        | piece :: pieces => String c piece :: pieces
        | [] => [String c EmptyString]
        end
  end.

(** [s[:-1]] *)
Fixpoint drop_last (s : string) : string :=
  match s with
  | EmptyString => EmptyString
  | String c EmptyString => EmptyString
  | String c s' => String c (drop_last s')
  end.

(** [l[0]] *)
Definition first_item (l : list string) : attempt string :=
  match l with
  | x :: _ => Done x
  | [] => Failed "list index out of range"
  end.

(** Python's [float] and the operations the tools use on it.  The type and
    the arithmetic are left open: the tools are modelled for any of them.
    [int_truediv a b] is [a / b] on two ints, which raises when the
    quotient is too large for a float; [float_div] is used with a divisor
    that is not zero only, [zero_division] being the text of the
    [ZeroDivisionError] raised otherwise; [float_of_str] is [float(s)];
    [format_float spec x] is [format(x, spec)]. *)
Record FloatOps : Type := mkFloatOps {
  float : Type;
  float_of_int : Z -> float;
  float_add : float -> float -> float;
  float_sub : float -> float -> float;
  float_mul : float -> float -> float;
  float_div : float -> float -> float;
  float_is_zero : float -> bool;
  float_lt : float -> float -> bool;
  float_of_str : string -> attempt float;
  format_float : string -> float -> string;
  int_truediv : Z -> Z -> attempt float;
  zero_division : string
}.

(** A number: an [int] or a [float]. *)
Inductive num (fo : FloatOps) : Type :=
  | NInt (z : Z)
  | NFloat (x : float fo).
Arguments NInt {fo} z.
Arguments NFloat {fo} x.

Definition to_float {fo} (a : num fo) : float fo :=
  match a with
  | NInt z => float_of_int fo z
  | NFloat x => x
  end.

Definition num_add {fo} (a b : num fo) : num fo :=
  match a, b with
  | NInt x, NInt y => NInt (x + y)
  | _, _ => NFloat (float_add fo (to_float a) (to_float b))
  end.

Definition num_sub {fo} (a b : num fo) : num fo :=
  match a, b with
  | NInt x, NInt y => NInt (x - y)
  | _, _ => NFloat (float_sub fo (to_float a) (to_float b))
  end.

Definition num_mul {fo} (a b : num fo) : num fo :=
  match a, b with
  | NInt x, NInt y => NInt (x * y)
  | _, _ => NFloat (float_mul fo (to_float a) (to_float b))
  end.

Definition num_is_zero {fo} (a : num fo) : bool :=
  match a with
  | NInt z => Z.eqb z 0%Z
  | NFloat x => float_is_zero fo x
  end.

Definition num_lt {fo} (a b : num fo) : bool :=
  match a, b with
  | NInt x, NInt y => Z.ltb x y
  | _, _ => float_lt fo (to_float a) (to_float b)
  end.

(** [a / b] where [b] is a float. *)
Definition num_div {fo} (a : num fo) (b : float fo) : attempt (num fo) :=
  if float_is_zero fo b then Failed (zero_division fo)
  else Done (NFloat (float_div fo (to_float a) b)).

(** [format(a, spec)] for a float presentation [spec]. *)
Definition num_format {fo} (spec : string) (a : num fo) : string :=
  format_float fo spec (to_float a).

(** [sum(l)] *)
Definition num_sum {fo} (l : list (num fo)) : num fo :=
  fold_left num_add l (NInt 0%Z).

(** [d.get(key, default)] *)
Definition dict_get {V} (d : gmap string V) (key : string) (default : V) : V :=
  match d !! key with
  | Some v => v
  | None => default
  end.

(** ** The tools of the risk assessor *)

(** The f-string of [assess_investment_risk]. *)
Definition risk_assessment_text (age tolerance level equity bond horizon : string)
    : string :=
  NL +:+
  "                Age: " +:+
  age +:+
  NL +:+
  "                Risk Tolerance: " +:+
  tolerance +:+
  NL +:+
  "                Recommended Risk Level: " +:+
  level +:+
  NL +:+
  "                Suggested Equity Allocation: " +:+
  equity +:+
  NL +:+
  "                Bond Allocation: " +:+
  bond +:+
  "%+" +:+
  NL +:+
  "                " +:+
  NL +:+
  "                Key Considerations:" +:+
  NL +:+
  "                • Time horizon until retirement: " +:+
  horizon +:+
  " years" +:+
  NL +:+
  "                • Emergency fund: 3-6 months of expenses recommended" +:+
  NL +:+
  "                • Diversification across asset classes and geographies" +:+
  NL +:+
  "                ".

Definition young_investor_tip : string :=
  NL +:+
  "💡 Young investor advantage: Long time horizon allows for higher risk/return potential".

Definition pre_retirement_tip : string :=
  NL +:+
  "💡 Pre-retirement focus: Consider gradually shifting to more conservative allocations".

Definition risk_scores : gmap string Z :=
  <["high" := 3%Z]> (<["medium" := 2%Z]> (<["low" := 1%Z]> ∅)).

(** The [if]/[elif] chain of [assess_investment_risk]: the risk level and
    the equity allocation. *)
Definition risk_recommendation (age tolerance_score : Z) : string * string :=
  if (age <? 30)%Z && (2 <=? tolerance_score)%Z then
    ("Aggressive", "80-90%")
  else if (age <? 50)%Z && (2 <=? tolerance_score)%Z then
    ("Moderate to Aggressive", "60-80%")
  else if (age <? 65)%Z then
    ("Moderate", "40-60%")
  else
    ("Conservative", "20-40%").

(** [100 - int(equity_allocation.split('-')[0][:-1])] *)
Definition bond_allocation (equity_allocation : string) : attempt Z :=
  try! lower_bound := first_item (split_on "-" equity_allocation) in
  try! n := int_of_digits (drop_last lower_bound) in
  Done (100 - n)%Z.

(** The [try] body of [assess_investment_risk].  [age_factor] is computed
    and not used.  An [age] that gets through that division is short enough
    for [str]. *)
Definition assess_investment_risk_body (fo : FloatOps) (so : StrOps)
    (age : Z) (income : float fo) (risk_tolerance : string)
    : attempt string :=
  try! age_factor := int_truediv fo (100 - age)%Z 100%Z in
  let tolerance_score :=
    dict_get risk_scores (str_lower so risk_tolerance) 2%Z in
  let (risk_level, equity_allocation) :=
    risk_recommendation age tolerance_score in
  try! bond := bond_allocation equity_allocation in
  let assessment :=
    risk_assessment_text (str_of_int age) (str_title so risk_tolerance)
      risk_level equity_allocation (str_of_int bond)
      (str_of_int (65 - age)%Z) in
  let assessment :=
    if (age <? 35)%Z then assessment +:+ young_investor_tip
    else if (55 <? age)%Z then assessment +:+ pre_retirement_tip
    else assessment in
  Done assessment.

Definition assess_investment_risk (fo : FloatOps) (so : StrOps)
    (age : Z) (income : float fo) (risk_tolerance : string) : string :=
  match assess_investment_risk_body fo so age income risk_tolerance with
  | Done assessment => assessment
  | Failed msg => "Risk assessment error: " +:+ msg
  end.

(** The f-string of [calculate_emergency_fund]. *)
Definition emergency_fund_text (expenses stability fund months : string)
    : string :=
  NL +:+
  "                Emergency Fund Recommendation:" +:+
  NL +:+
  "                " +:+
  NL +:+
  "                Monthly Expenses: $" +:+
  expenses +:+
  NL +:+
  "                Job Stability: " +:+
  stability +:+
  NL +:+
  "                " +:+
  NL +:+
  "                Recommended Emergency Fund: $" +:+
  fund +:+
  NL +:+
  "                (" +:+
  months +:+
  " months of expenses)" +:+
  NL +:+
  "                " +:+
  NL +:+
  "                💡 Tips:" +:+
  NL +:+
  "                • Keep in high-yield savings account" +:+
  NL +:+
  "                • Separate from investment accounts" +:+
  NL +:+
  "                • Review and adjust annually" +:+
  NL +:+
  "                • Consider money market funds for larger amounts" +:+
  NL +:+
  "                ".

Definition stability_multipliers : gmap string Z :=
  <["unstable" := 9%Z]> (<["moderate" := 6%Z]> (<["stable" := 3%Z]> ∅)).

Definition calculate_emergency_fund_body (fo : FloatOps) (so : StrOps)
    (monthly_expenses : float fo) (job_stability : string)
    : attempt string :=
  let multiplier :=
    dict_get stability_multipliers (str_lower so job_stability) 6%Z in
  let recommended_fund :=
    num_mul (NFloat monthly_expenses) (NInt multiplier) in
  Done (emergency_fund_text
          (format_float fo ",.2f" monthly_expenses)
          (str_title so job_stability)
          (num_format ",.2f" recommended_fund)
          (str_of_int multiplier)).

Definition calculate_emergency_fund (fo : FloatOps) (so : StrOps)
    (monthly_expenses : float fo) (job_stability : string) : string :=
  match calculate_emergency_fund_body fo so monthly_expenses job_stability with
  | Done text => text
  | Failed msg => "Emergency fund calculation error: " +:+ msg
  end.

(** A toy arithmetic for concrete runs: whole numbers in place of
    floats. *)
Definition sample_float_ops : FloatOps :=
  mkFloatOps Z (fun z => z) Z.add Z.sub Z.mul Z.div (Z.eqb 0%Z) Z.ltb
    (fun s => match NilZero.int_of_string s with
              | Some d => Done (Z.of_int d)
              | None => Failed ("could not convert string to float: '" +:+ s +:+ "'")
              end)
    (fun _ x => str_of_int x)
    (fun a b => if Z.eqb b 0%Z then Failed "division by zero"
                else Done (a / b)%Z)
    "float division by zero".

(** ** The market data provider *)

(** yfinance, as far as the tools use it.  [ticker_info n symbol] is
    [yf.Ticker(symbol).info] and [ticker_closes n symbol period] the
    [Close] column of [yf.Ticker(symbol).history(period=period)], empty for
    an empty frame; either may raise.  [n] counts the requests the tool has
    made before, so that the provider may answer the same request
    differently each time.  The values of an [info] dict are objects of any
    type: [value_str] is their [format] without a specification,
    [value_commas] their [format] with [","], which raises for objects
    that are not numbers, and [value_eqb] is [==]. *)
Record Provider (fo : FloatOps) : Type := mkProvider {
  info_value : Type;
  value_of_str : string -> info_value;
  value_of_int : Z -> info_value;
  value_str : info_value -> string;
  value_commas : info_value -> attempt string;
  value_eqb : info_value -> info_value -> bool;
  ticker_info : nat -> string -> attempt (gmap string info_value);
  ticker_closes : nat -> string -> string -> attempt (list (float fo))
}.
Arguments info_value {fo} _.
Arguments value_of_str {fo} _ _.
Arguments value_of_int {fo} _ _.
Arguments value_str {fo} _ _.
Arguments value_commas {fo} _ _.
Arguments value_eqb {fo} _ _ _.
Arguments ticker_info {fo} _ _ _.
Arguments ticker_closes {fo} _ _ _ _.

(** The message of the [IndexError] that pandas raises for [.iloc] out of
    range. *)
Definition iloc_message : string :=
  "single positional indexer is out-of-bounds".

(** [column.iloc[-1 - k]] *)
Definition iloc_from_end {A} (column : list A) (k : nat) : attempt A :=
  match nth_error (rev column) k with
  | Some x => Done x
  | None => Failed iloc_message
  end.

(** [frame.empty] *)
Definition frame_empty {A} (column : list A) : bool :=
  match column with
  | [] => true
  | _ :: _ => false
  end.

(** [(change / base) * 100 if base != 0 else 0] *)
Definition percent_change {fo} (change base : float fo) : attempt (num fo) :=
  if negb (float_is_zero fo base) then
    try! ratio := num_div (NFloat change) base in
    Done (num_mul ratio (NInt 100%Z))
  else Done (NInt 0%Z).

(** ** The tools of the portfolio analyst and of the market researcher *)

(** The f-string of [get_stock_price]. *)
Definition stock_price_text (symbol company price change pct cap pe high low : string)
    : string :=
  NL +:+
  "                Stock: " +:+
  symbol +:+
  NL +:+
  "                Company: " +:+
  company +:+
  NL +:+
  "                Current Price: $" +:+
  price +:+
  NL +:+
  "                Change: $" +:+
  change +:+
  " (" +:+
  pct +:+
  "%)" +:+
  NL +:+
  "                Market Cap: $" +:+
  cap +:+
  NL +:+
  "                P/E Ratio: " +:+
  pe +:+
  NL +:+
  "                52-Week High: $" +:+
  high +:+
  NL +:+
  "                52-Week Low: $" +:+
  low +:+
  NL +:+
  "                ".

Definition get_stock_price_body (fo : FloatOps) (so : StrOps)
    (yf : Provider fo) (symbol : string) : attempt string :=
  try! info := ticker_info yf 0 symbol in
  try! history := ticker_closes yf 1 symbol "1d" in
  if frame_empty history then Done ("No data found for " +:+ symbol)
  else
    try! current_price := iloc_from_end history 0 in
    try! prev_close := iloc_from_end history 1 in
    let change := float_sub fo current_price prev_close in
    try! change_percentage := percent_change change prev_close in
    try! cap :=
      value_commas yf (dict_get info "marketCap" (value_of_int yf 0%Z)) in
    Done (stock_price_text
            (str_upper so symbol)
            (value_str yf (dict_get info "longName" (value_of_str yf "N/A")))
            (format_float fo ".2f" current_price)
            (format_float fo ".2f" change)
            (num_format ".2f" change_percentage)
            cap
            (value_str yf (dict_get info "trailingPE" (value_of_str yf "N/A")))
            (value_str yf
               (dict_get info "fiftyTwoWeekHigh" (value_of_str yf "N/A")))
            (value_str yf
               (dict_get info "fiftyTwoWeekLow" (value_of_str yf "N/A")))).

Definition get_stock_price (fo : FloatOps) (so : StrOps) (yf : Provider fo)
    (symbol : string) : string :=
  match get_stock_price_body fo so yf symbol with
  | Done text => text
  | Failed msg =>
      "Error getting stock data for " +:+ symbol +:+ ": " +:+ msg
  end.

(** The major indices, in the order of the dict literal. *)
Definition indices : list (string * string) :=
  [("^GSPC", "S&P 500"); ("^DJI", "Dow Jones"); ("^IXIC", "NASDAQ")].

(** The inner [try] body of [get_market_overview] for one index: what it
    appends to [market_data]. *)
Definition index_line_body (fo : FloatOps) (yf : Provider fo) (n : nat)
    (symbol name : string) : attempt string :=
  try! history := ticker_closes yf n symbol "2d" in
  if negb (frame_empty history) then
    try! current := iloc_from_end history 0 in
    try! previous :=
      if (1 <? length history)%nat then iloc_from_end history 1
      else Done current in
    let change := float_sub fo current previous in
    try! change_percentage := percent_change change previous in
    Done (name +:+ ": " +:+ format_float fo ".2f" current +:+ " (" +:+
          format_float fo "+.2f" change +:+ ", " +:+
          num_format "+.2f" change_percentage +:+ "%)" +:+ NL)
  else Done EmptyString.

Definition index_line (fo : FloatOps) (yf : Provider fo) (n : nat)
    (symbol name : string) : string :=
  match index_line_body fo yf n symbol name with
  | Done line => line
  | Failed _ => name +:+ ": Data unavailable" +:+ NL
  end.

(** The [for] loop of [get_market_overview]. *)
Fixpoint overview_loop (fo : FloatOps) (yf : Provider fo) (n : nat)
    (todo : list (string * string)) (market_data : string) : string :=
  match todo with
  | [] => market_data
  | (symbol, name) :: todo' =>
      overview_loop fo yf (S n) todo'
        (market_data +:+ index_line fo yf n symbol name)
  end.

Definition get_market_overview_body (fo : FloatOps) (yf : Provider fo)
    : attempt string :=
  let market_data := "Market Overview:" +:+ NL +:+ NL in
  Done (overview_loop fo yf 0 indices market_data).

Definition get_market_overview (fo : FloatOps) (yf : Provider fo) : string :=
  match get_market_overview_body fo yf with
  | Done market_data => market_data
  | Failed msg => "Market data error: " +:+ msg
  end.

(** A provider for concrete runs: every history has the one row [closes]
    says, and every [info] is empty. *)
Definition sample_provider (closes : list Z) : Provider sample_float_ops :=
  mkProvider sample_float_ops string (fun s => s) str_of_int (fun s => s)
    (fun s => Done s) String.eqb
    (fun _ _ => Done ∅) (fun _ _ _ => Done closes).

(** The line [get_market_overview] shows for an index with the close
    [current] and the close [previous] before it. *)
Definition index_data_line (fo : FloatOps) (name : string)
    (current previous : float fo) : string :=
  let change := float_sub fo current previous in
  let change_percentage :=
    if float_is_zero fo previous then NInt 0%Z
    else num_mul (NFloat (float_div fo change previous)) (NInt 100%Z) in
  name +:+ ": " +:+ format_float fo ".2f" current +:+ " (" +:+
  format_float fo "+.2f" change +:+ ", " +:+
  num_format "+.2f" change_percentage +:+ "%)" +:+ NL.

(** What [get_market_overview] shows for an index, by what the provider
    gave: nothing for an empty history, the close against itself for a
    history of one row, the last close against the one before it
    otherwise, and a notice when the request raised. *)
Definition index_report (fo : FloatOps) (yf : Provider fo) (n : nat)
    (symbol name : string) : string :=
  match ticker_closes yf n symbol "2d" with
  | Failed _ => name +:+ ": Data unavailable" +:+ NL
  | Done history =>
      match rev history with
      | [] => EmptyString
      | [only] => index_data_line fo name only only
      | current :: previous :: _ => index_data_line fo name current previous
      end
  end.

(** ** The tools of the budget planner *)

(** A dict whose order of insertion matters: assigning to a key it holds
    replaces the value in place, a new key goes to the end. *)
Fixpoint odict_set {V} (key : string) (v : V) (d : list (string * V))
    : list (string * V) :=
  match d with
  | [] => [(key, v)]
  | (k, x) :: d' =>
      if String.eqb k key then (k, v) :: d'
      else (k, x) :: odict_set key v d'
  end.

Fixpoint odict_get {V} (d : list (string * V)) (key : string) (default : V)
    : V :=
  match d with
  | [] => default
  | (k, x) :: d' => if String.eqb k key then x else odict_get d' key default
  end.

(** [a, b = parts] *)
Definition unpack_pair (parts : list string) : attempt (string * string) :=
  match parts with
  | [a; b] => Done (a, b)
  | [] | [_] =>
      Failed ("not enough values to unpack (expected 2, got " +:+
              str_of_int (Z.of_nat (length parts)) +:+ ")")
  | _ => Failed "too many values to unpack (expected 2)"
  end.

(** The loop that fills [expense_dict]. *)
Fixpoint parse_expenses (fo : FloatOps) (so : StrOps) (items : list string)
    (expense_dict : list (string * float fo))
    : attempt (list (string * float fo)) :=
  match items with
  | [] => Done expense_dict
  | item :: items' =>
      try! pair := unpack_pair (split_on ":" item) in
      let (category, amount) := pair in
      try! value := float_of_str fo (str_strip so amount) in
      parse_expenses fo so items'
        (odict_set (str_strip so category) value expense_dict)
  end.

(** [(x / income) * 100 if income > 0 else 0] *)
Definition share_of_income {fo} (x : num fo) (income : float fo)
    : attempt (num fo) :=
  if num_lt (NInt 0%Z) (NFloat income) then
    try! ratio := num_div x income in
    Done (num_mul ratio (NInt 100%Z))
  else Done (NInt 0%Z).

(** The f-string that opens the text of [analyze_budget]. *)
Definition budget_header_text (income total savings rate : string)
    : string :=
  NL +:+
  "                Budget Analysis:" +:+
  NL +:+
  "                Monthly Income: $" +:+
  income +:+
  NL +:+
  "                Total Expenses: $" +:+
  total +:+
  NL +:+
  "                Net Savings: $" +:+
  savings +:+
  NL +:+
  "                Savings Rate: " +:+
  rate +:+
  "%" +:+
  NL +:+
  NL +:+
  "                Expense Breakdown:" +:+
  NL +:+
  "                ".

(** The loop that appends the breakdown lines. *)
Fixpoint expense_breakdown (fo : FloatOps) (so : StrOps)
    (income : float fo) (entries : list (string * float fo))
    (analysis : string) : attempt string :=
  match entries with
  | [] => Done analysis
  | (category, amount) :: entries' =>
      try! percentage := share_of_income (NFloat amount) income in
      expense_breakdown fo so income entries'
        (analysis +:+ str_title so category +:+ ": $" +:+
         format_float fo ",.2f" amount +:+ " (" +:+
         num_format ".1f" percentage +:+ "%)" +:+ NL)
  end.

Definition low_savings_notice : string :=
  "⚠️ Low savings rate. Aim for at least 10-20% of income." +:+
  NL.

Definition good_savings_notice : string :=
  "✅ Good savings rate. Consider increasing to 20%+." +:+
  NL.

Definition excellent_savings_notice : string :=
  "🎉 Excellent savings rate!" +:+
  NL.

Definition needs_notice (needs_pct : string) : string :=
  "💡 Consider reducing essential expenses (currently " +:+ needs_pct +:+
  "%, target: 50%)" +:+
  NL.

Definition needs_categories : list string :=
  ["rent"; "utilities"; "groceries"; "transport"].

Definition analyze_budget_body (fo : FloatOps) (so : StrOps)
    (income : float fo) (expenses : string) : attempt string :=
  try! expense_dict := parse_expenses fo so (split_on "," expenses) [] in
  let total_expenses := num_sum (map (fun e => NFloat (snd e)) expense_dict) in
  let savings := num_sub (NFloat income) total_expenses in
  try! savings_rate := share_of_income savings income in
  let analysis :=
    budget_header_text
      (format_float fo ",.2f" income)
      (num_format ",.2f" total_expenses)
      (num_format ",.2f" savings)
      (num_format ".1f" savings_rate) in
  try! analysis := expense_breakdown fo so income expense_dict analysis in
  let analysis := analysis +:+ NL +:+ "Recommendations:" +:+ NL in
  let analysis :=
    if num_lt savings_rate (NInt 10%Z) then analysis +:+ low_savings_notice
    else if num_lt savings_rate (NInt 20%Z) then
      analysis +:+ good_savings_notice
    else analysis +:+ excellent_savings_notice in
  try! needs_ratio :=
    num_div
      (num_sum (map (fun cat =>
                       match find (fun e => String.eqb (fst e) cat)
                                  expense_dict with
                       | Some e => NFloat (snd e)
                       | None => NInt 0%Z
                       end) needs_categories))
      income in
  let needs_pct := num_mul needs_ratio (NInt 100%Z) in
  let analysis :=
    if num_lt (NInt 50%Z) needs_pct then
      analysis +:+ needs_notice (num_format ".1f" needs_pct)
    else analysis in
  Done analysis.

Definition analyze_budget (fo : FloatOps) (so : StrOps) (income : float fo)
    (expenses : string) : string :=
  match analyze_budget_body fo so income expenses with
  | Done analysis => analysis
  | Failed msg => "Budget analysis error: " +:+ msg
  end.

(** ** The portfolio tool *)

(** One entry of [portfolio_data]. *)
Record Position (fo : FloatOps) (yf : Provider fo) : Type := mkPosition {
  p_stock : string;
  p_amount : float fo;
  p_weight : num fo;
  p_sector : info_value yf;
  p_beta : info_value yf
}.
Arguments mkPosition {fo yf} _ _ _ _ _.
Arguments p_stock {fo yf} _.
Arguments p_amount {fo yf} _.
Arguments p_weight {fo yf} _.
Arguments p_sector {fo yf} _.
Arguments p_beta {fo yf} _.

(** [[float(a.strip()) for a in items]] *)
Fixpoint parse_amounts (fo : FloatOps) (so : StrOps) (items : list string)
    : attempt (list (float fo)) :=
  match items with
  | [] => Done []
  | a :: items' =>
      try! x := float_of_str fo (str_strip so a) in
      try! rest := parse_amounts fo so items' in
      Done (x :: rest)
  end.

(** The loop that fills [portfolio_data]; [n] counts the requests made to
    the provider. *)
Fixpoint build_portfolio (fo : FloatOps) (so : StrOps) (yf : Provider fo)
    (n : nat) (total_value : num fo) (pairs : list (string * float fo))
    : attempt (list (Position fo yf)) :=
  match pairs with
  | [] => Done []
  | (symbol, amount) :: pairs' =>
      try! info := ticker_info yf n (str_upper so symbol) in
      try! ratio := num_div (NFloat amount) (to_float total_value) in
      let item :=
        mkPosition (str_upper so symbol) amount
          (num_mul ratio (NInt 100%Z))
          (dict_get info "sector" (value_of_str yf "N/A"))
          (dict_get info "beta" (value_of_str yf "N/A")) in
      try! others := build_portfolio fo so yf (S n) total_value pairs' in
      Done (item :: others)
  end.

(** [sectors[sector] = sectors.get(sector, 0) + weight], on a dict in
    insertion order whose keys are compared with [==]. *)
Fixpoint sector_add {fo} (yf : Provider fo) (sector : info_value yf)
    (weight : num fo) (sectors : list (info_value yf * num fo))
    : list (info_value yf * num fo) :=
  match sectors with
  | [] => [(sector, num_add (NInt 0%Z) weight)]
  | (k, x) :: sectors' =>
      if value_eqb yf k sector then (k, num_add x weight) :: sectors'
      else (k, x) :: sector_add yf sector weight sectors'
  end.

(** [set(values)]: the values without repetition. *)
Definition distinct_values {fo} (yf : Provider fo)
    (values : list (info_value yf)) : list (info_value yf) :=
  fold_left
    (fun seen v => if existsb (value_eqb yf v) seen then seen else seen ++ [v])
    values [].

Definition mismatch_notice : string :=
  "Error: Number of stocks and amounts must match".

Definition diversification_warning : string :=
  NL +:+ " WARNING: Portfolio lacks sector diversification" +:+ NL.

Definition position_line {fo} (yf : Provider fo) (item : Position fo yf)
    : string :=
  p_stock item +:+ ": $" +:+ format_float fo ",.2f" (p_amount item) +:+
  " (" +:+ num_format ".1f" (p_weight item) +:+ "%) - " +:+
  value_str yf (p_sector item) +:+ NL.

Definition sector_line {fo} (yf : Provider fo)
    (entry : info_value yf * num fo) : string :=
  value_str yf (fst entry) +:+ ": " +:+ num_format ".1f" (snd entry) +:+
  "%" +:+ NL.

Definition analyze_portfolio_body (fo : FloatOps) (so : StrOps)
    (yf : Provider fo) (stocks amounts : string) : attempt string :=
  let stock_list := map (str_strip so) (split_on "," stocks) in
  try! amounts_list := parse_amounts fo so (split_on "," amounts) in
  if negb (Nat.eqb (length stock_list) (length amounts_list)) then
    Done mismatch_notice
  else
    let total_value := num_sum (map NFloat amounts_list) in
    try! portfolio_data :=
      build_portfolio fo so yf 0 total_value
        (combine stock_list amounts_list) in
    let sectors :=
      fold_left (fun sectors item =>
                   sector_add yf (p_sector item) (p_weight item) sectors)
                portfolio_data [] in
    let analysis :=
      "Portfolio Analysis (Total: $" +:+ num_format ".2f" total_value +:+
      ")" +:+ NL +:+ NL in
    let analysis :=
      fold_left (fun analysis item => analysis +:+ position_line yf item)
                portfolio_data analysis in
    let analysis := analysis +:+ NL +:+ "Sector Distribution:" +:+ NL in
    let analysis :=
      fold_left (fun analysis entry => analysis +:+ sector_line yf entry)
                sectors analysis in
    let named :=
      List.filter (fun v => negb (value_eqb yf v (value_of_str yf "N/A")))
                  (map p_sector portfolio_data) in
    let analysis :=
      if (length (distinct_values yf named) <? 3)%nat then
        analysis +:+ diversification_warning
      else analysis in
    Done analysis.

Definition analyze_portfolio (fo : FloatOps) (so : StrOps)
    (yf : Provider fo) (stocks amounts : string) : string :=
  match analyze_portfolio_body fo so yf stocks amounts with
  | Done analysis => analysis
  | Failed msg => "Portfolio analysis error: " +:+ msg
  end.

(** * Properties *)

(** ** The monad, step by step *)

Lemma bind_ok {A B} (m : M A) (f : A -> M B) h a t1 r t2 :
  m h = (Ok a, t1) -> f a (h ++ t1) = (r, t2) -> bind m f h = (r, t1 ++ t2).
Proof. intros Hm Hf. unfold bind. now rewrite Hm, Hf. Qed.

Lemma bind_raise {A B} (m : M A) (f : A -> M B) h e t1 :
  m h = (Raise e, t1) -> bind m f h = (Raise e, t1).
Proof. intros Hm. unfold bind. now rewrite Hm. Qed.

Lemma getitem_some st key v h :
  st !! key = Some v -> getitem st key h = (Ok v, []).
Proof. intros H. unfold getitem. now rewrite H. Qed.

Lemma getitem_none st key h :
  st !! key = None -> getitem st key h = (Raise (KeyError key), []).
Proof. intros H. unfold getitem. now rewrite H. Qed.

(** ** The nodes *)

Lemma node_of_template w a : node_of w a = specialist_node w (stage_of a).
Proof. now destruct a. Qed.

(** A specialist node on a state that holds a query: one notice, one call,
    and on a non-empty answer one assignment to the stage's own key. *)
Lemma specialist_node_run w s st q h :
  st !! "query" = Some q ->
  let r := agent_reply w (s_agent s) (h ++ [EPrint (s_notice s)])
             [HumanMessage (s_prefix s +:+ q)] (mkConfig (s_thread s)) in
  specialist_node w s st h =
    (match stage_text r with
     | Ok v => Ok (<[s_key s := v]> st)
     | Raise e => Raise e
     end, node_events s q r).
Proof.
  intros Hq r. subst r.
  unfold specialist_node, print, bind, emit, getitem, invoke_agent.
  rewrite Hq. unfold ret at 1. simpl. rewrite app_nil_r.
  unfold node_events, stage_text, last_item.
  destruct (agent_reply w _ _ _ _) as [msgs | e]; [ | reflexivity ].
  destruct (last msgs) as [m | ]; reflexivity.
Qed.

(** A specialist node on a state without a query raises [KeyError] before
    any call. *)
Lemma specialist_node_no_query w s st h :
  st !! "query" = None ->
  specialist_node w s st h =
    (Raise (KeyError "query"), [EPrint (s_notice s)]).
Proof.
  intros Hq. unfold specialist_node, print, bind, emit, getitem.
  now rewrite Hq.
Qed.

Lemma coordinator_node_run w st q h :
  st !! "query" = Some q ->
  let prompt := coordinator_prompt q
                  (get st "portfolio_analysis" "N/A")
                  (get st "budget_analysis" "N/A")
                  (get st "market_data" "N/A")
                  (get st "risk_assessment" "N/A") in
  let rl := llm_reply w
              (h ++ [EPrint "🎯 Financial Coordinator synthesizing recommendations..."])
              [HumanMessage prompt] in
  coordinator_node w st h =
    (match rl with
     | Ok resp => Ok (<["final_recommendation" := content resp]> st)
     | Raise e => Raise e
     end, coordinator_events prompt rl).
Proof.
  intros Hq prompt rl. subst rl prompt.
  unfold coordinator_node, print, bind, emit, getitem, invoke_llm.
  rewrite Hq. unfold ret at 1. simpl. rewrite app_nil_r.
  unfold coordinator_events.
  destruct (llm_reply w _ _) as [resp | e]; reflexivity.
Qed.

Lemma coordinator_node_no_query w st h :
  st !! "query" = None ->
  coordinator_node w st h =
    (Raise (KeyError "query"),
     [EPrint "🎯 Financial Coordinator synthesizing recommendations..."]).
Proof.
  intros Hq. unfold coordinator_node, print, bind, emit, getitem.
  now rewrite Hq.
Qed.

(** ** The graph *)

Lemma invoke_create_workflow w st :
  invoke (create_workflow w) st = pipeline w st.
Proof. reflexivity. Qed.

(** One specialist stage followed by the rest of the run. *)
Lemma stage_step {B} w a st q h (k : FinanceState -> M B) :
  st !! "query" = Some q ->
  let r := reply_at w a q h in
  let t := stage_events (stage_of a) q r in
  (emit (ENode (s_name (stage_of a))) ;;
   st' <- node_of w a st ;; k st') h =
  match stage_text r with
  | Raise e => (Raise e, t)
  | Ok v =>
      (fst (k (<[s_key (stage_of a) := v]> st) (h ++ t)),
       t ++ snd (k (<[s_key (stage_of a) := v]> st) (h ++ t)))
  end.
Proof.
  intros Hq r t. subst t r. unfold reply_at.
  rewrite node_of_template.
  unfold bind at 1, emit. unfold bind at 1.
  rewrite (specialist_node_run _ _ _ _ _ Hq). cbv zeta.
  unfold stage_events.
  destruct (stage_text _) as [v | e]; [ | reflexivity ].
  rewrite <- app_assoc. simpl.
  destruct (k _ _). reflexivity.
Qed.

Lemma coordinator_step w st q h :
  st !! "query" = Some q ->
  let prompt := coordinator_prompt q
                  (get st "portfolio_analysis" "N/A")
                  (get st "budget_analysis" "N/A")
                  (get st "market_data" "N/A")
                  (get st "risk_assessment" "N/A") in
  exists rl,
    (emit (ENode "coordinator") ;;
     st5 <- coordinator_node w st ;; ret st5) h =
    (match rl with
     | Ok resp => Ok (<["final_recommendation" := content resp]> st)
     | Raise e => Raise e
     end, ENode "coordinator" :: coordinator_events prompt rl).
Proof.
  intros Hq prompt.
  unfold bind at 1, emit. unfold bind at 1.
  rewrite (coordinator_node_run _ _ _ _ Hq). cbv zeta. fold prompt.
  exists (llm_reply w
            ((h ++ [ENode "coordinator"]) ++
             [EPrint "🎯 Financial Coordinator synthesizing recommendations..."])
            [HumanMessage prompt]).
  destruct (llm_reply w _ _) as [resp | e].
  - reflexivity.
  - reflexivity.
Qed.

(** ** The state between the stages *)

Lemma initial_state_query q : initial_state q !! "query" = Some q.
Proof. unfold initial_state. by simplify_map_eq. Qed.

Lemma get_insert_eq (st : FinanceState) key v d :
  get (<[key := v]> st) key d = v.
Proof. unfold get. now rewrite lookup_insert_eq. Qed.

Lemma get_insert_ne (st : FinanceState) key key' v d :
  key <> key' -> get (<[key := v]> st) key' d = get st key' d.
Proof. intros Hne. unfold get. now rewrite lookup_insert_ne. Qed.

Lemma insert_keeps_query (st : FinanceState) key v q :
  key <> "query" -> st !! "query" = Some q -> <[key := v]> st !! "query" = Some q.
Proof. intros Hne Hq. by rewrite lookup_insert_ne. Qed.

(** ** The whole run, summarised *)

(** Whatever the collaborators are, the graph's run on the initial state
    is the outcome determined by the replies they gave. *)
Lemma pipeline_run w q h :
  exists r1 r2 r3 r4 rl,
    pipeline w (initial_state q) h = pipeline_outcome q r1 r2 r3 r4 rl.
Proof.
  pose (dummy := @Raise (list Message) IndexError).
  unfold pipeline.
  rewrite (stage_step w portfolio_agent _ q h _ (initial_state_query q)).
  set (r1 := reply_at w portfolio_agent q h).
  set (h1 := h ++ stage_events (stage_of portfolio_agent) q r1).
  destruct (stage_text r1) as [p | e] eqn:E1; cycle 1.
  { exists r1, dummy, dummy, dummy, (Raise IndexError).
    unfold pipeline_outcome. now rewrite E1. }
  set (st1 := <[s_key (stage_of portfolio_agent) := p]> (initial_state q)).
  assert (Hq1 : st1 !! "query" = Some q)
    by (apply insert_keeps_query; [ done | apply initial_state_query ]).
  rewrite (stage_step w budget_agent _ q h1 _ Hq1).
  set (r2 := reply_at w budget_agent q h1).
  set (h2 := h1 ++ stage_events (stage_of budget_agent) q r2).
  destruct (stage_text r2) as [b | e] eqn:E2; cycle 1.
  { exists r1, r2, dummy, dummy, (Raise IndexError).
    unfold pipeline_outcome. now rewrite E1, E2. }
  set (st2 := <[s_key (stage_of budget_agent) := b]> st1).
  assert (Hq2 : st2 !! "query" = Some q)
    by (apply insert_keeps_query; [ done | exact Hq1 ]).
  rewrite (stage_step w market_research_agent _ q h2 _ Hq2).
  set (r3 := reply_at w market_research_agent q h2).
  set (h3 := h2 ++ stage_events (stage_of market_research_agent) q r3).
  destruct (stage_text r3) as [m | e] eqn:E3; cycle 1.
  { exists r1, r2, r3, dummy, (Raise IndexError).
    unfold pipeline_outcome. now rewrite E1, E2, E3. }
  set (st3 := <[s_key (stage_of market_research_agent) := m]> st2).
  assert (Hq3 : st3 !! "query" = Some q)
    by (apply insert_keeps_query; [ done | exact Hq2 ]).
  rewrite (stage_step w risk_assessment_agent _ q h3 _ Hq3).
  set (r4 := reply_at w risk_assessment_agent q h3).
  set (h4 := h3 ++ stage_events (stage_of risk_assessment_agent) q r4).
  destruct (stage_text r4) as [r | e] eqn:E4; cycle 1.
  { exists r1, r2, r3, r4, (Raise IndexError).
    unfold pipeline_outcome. now rewrite E1, E2, E3, E4. }
  set (st4 := <[s_key (stage_of risk_assessment_agent) := r]> st3).
  assert (Hq4 : st4 !! "query" = Some q)
    by (apply insert_keeps_query; [ done | exact Hq3 ]).
  destruct (coordinator_step w st4 q h4 Hq4) as [rl El].
  rewrite El.
  exists r1, r2, r3, r4, rl.
  unfold pipeline_outcome. rewrite E1, E2, E3, E4.
  assert (Hp : get st4 "portfolio_analysis" "N/A" = p)
    by (unfold st4, st3, st2, st1; simpl;
        now rewrite !get_insert_ne, get_insert_eq by discriminate).
  assert (Hb : get st4 "budget_analysis" "N/A" = b)
    by (unfold st4, st3, st2; simpl;
        now rewrite !get_insert_ne, get_insert_eq by discriminate).
  assert (Hm : get st4 "market_data" "N/A" = m)
    by (unfold st4, st3; simpl;
        now rewrite !get_insert_ne, get_insert_eq by discriminate).
  assert (Hr : get st4 "risk_assessment" "N/A" = r)
    by (unfold st4; simpl; now rewrite get_insert_eq).
  rewrite Hp, Hb, Hm, Hr. reflexivity.
Qed.

Lemma final_state_of_run w q h :
  exists r1 r2 r3 r4 rl,
    final_state_of w q h = final_outcome q r1 r2 r3 r4 rl.
Proof.
  unfold final_state_of, print, emit.
  change (invoke (create_workflow w) (initial_state q))
    with (pipeline w (initial_state q)).
  unfold bind at 1. unfold bind at 1.
  destruct (pipeline_run w q
              ((h ++ [EPrint ("🏦 Financial Advisory Team analyzing: " +:+ q)])
               ++ [EPrint (str_mul "=" 60)]))
    as (r1 & r2 & r3 & r4 & rl & E).
  exists r1, r2, r3, r4, rl. rewrite E. unfold final_outcome.
  destruct (pipeline_outcome q r1 r2 r3 r4 rl) as [res t]. reflexivity.
Qed.

Lemma get_financial_advice_of_final w q h :
  get_financial_advice w q h =
    (advice_of (fst (final_state_of w q h)), snd (final_state_of w q h)).
Proof.
  unfold get_financial_advice, bind, getitem, advice_of.
  destruct (final_state_of w q h) as [[st | e] t]; simpl; [ | reflexivity ].
  destruct (st !! "final_recommendation"); unfold ret, raise;
    now rewrite app_nil_r.
Qed.

(** The summary every property of a run is read from. *)
Lemma run_summary w q h :
  exists r1 r2 r3 r4 rl,
    final_state_of w q h = final_outcome q r1 r2 r3 r4 rl /\
    get_financial_advice w q h =
      (advice_of (fst (final_outcome q r1 r2 r3 r4 rl)),
       snd (final_outcome q r1 r2 r3 r4 rl)).
Proof.
  destruct (final_state_of_run w q h) as (r1 & r2 & r3 & r4 & rl & E).
  exists r1, r2, r3, r4, rl. split; [ exact E | ].
  now rewrite get_financial_advice_of_final, E.
Qed.

(** Split a run into the cases of its summary: each stage either produced
    a text or raised, and so did the chat model. *)
Ltac run_cases w q h :=
  let r1 := fresh "r1" in let r2 := fresh "r2" in
  let r3 := fresh "r3" in let r4 := fresh "r4" in
  let rl := fresh "rl" in
  let Ef := fresh "Ef" in let Ea := fresh "Ea" in
  destruct (run_summary w q h) as (r1 & r2 & r3 & r4 & rl & Ef & Ea);
  rewrite ?Ea, ?Ef;
  unfold final_outcome, pipeline_outcome, stage_events, node_events,
    coordinator_events, run_banner;
  destruct (stage_text r1) as [? | ?] eqn:?;
  [ destruct (stage_text r2) as [? | ?] eqn:?;
    [ destruct (stage_text r3) as [? | ?] eqn:?;
      [ destruct (stage_text r4) as [? | ?] eqn:?;
        [ destruct rl as [? | ?] | ] | ] | ] | ].


(** * The specified properties *)

(** ** C1: the fixed stage order *)

(** C1.  The workflow built by [create_workflow] is a single chain: it is
    entered at the portfolio stage and every stage has exactly one
    successor (no branching).  For every query, empty or not, the stages a
    run starts are an initial segment of portfolio, budget, market, risk,
    coordinator, in this order; none is omitted as soon as every specialist
    call made gave a text, and in particular when the run returns. *)
Theorem C1_fixed_stage_order (w : World) (q : string) (h : list Event) :
  let run := get_financial_advice w q h in
  entry_point (create_workflow w) = Some "portfolio_analysis" /\
  map (successors (create_workflow w)) stages =
    [["budget_analysis"]; ["market_research"]; ["risk_assessment"];
     ["coordinator"]; [END]] /\
  stage_order (snd run) `prefix_of` stages /\
  (Forall (fun c => is_ok (stage_text (snd c)) = true) (agent_calls (snd run)) ->
   stage_order (snd run) = stages) /\
  (is_ok (fst run) = true -> stage_order (snd run) = stages).
Proof.
  cbv zeta. split; [ reflexivity | ]. split; [ reflexivity | ].
  run_cases w q h; simpl.
  1,2: (split; [ reflexivity | ]; split; reflexivity).
  all: split; [ eexists; reflexivity | ].
  all: split; [ | discriminate ].
  all: intros HF.
  all: repeat (apply Forall_cons in HF; destruct HF as [? HF]).
  all: simpl in *.
  all: match goal with
       | H1 : stage_text ?r = Raise _, H2 : is_ok (stage_text ?r) = true |- _ =>
           rewrite H1 in H2; discriminate
       end.
Qed.

(** On the stub collaborators every call gives a text, the run returns and
    it goes through the five stages. *)
Lemma C1_fixed_stage_order_witness :
  let run := get_financial_advice stub_world sample_query [] in
  Forall (fun c => is_ok (stage_text (snd c)) = true) (agent_calls (snd run)) /\
  is_ok (fst run) = true /\
  stage_order (snd run) = stages.
Proof.
  destruct (C1_fixed_stage_order stub_world sample_query [])
    as (_ & _ & _ & Hcalls & Hok).
  split; [ vm_compute; repeat constructor | ].
  split; [ reflexivity | ].
  apply Hok. reflexivity.
Defined.

(** ** C2: one slot per stage *)

(** A specialist node changes no key but its own. *)
Lemma specialist_node_frame w a st h st' k :
  fst (node_of w a st h) = Ok st' ->
  k <> s_key (stage_of a) -> st' !! k = st !! k.
Proof.
  rewrite node_of_template. intros Hrun Hk.
  destruct (st !! "query") as [q | ] eqn:Hq.
  - rewrite (specialist_node_run _ _ _ _ _ Hq) in Hrun. simpl in Hrun.
    destruct (stage_text _) as [v | e]; [ | discriminate ].
    injection Hrun as <-. now rewrite lookup_insert_ne.
  - rewrite (specialist_node_no_query _ _ _ _ Hq) in Hrun. discriminate.
Qed.

(** The coordinator changes no key but [final_recommendation]. *)
Lemma coordinator_node_frame w st h st' k :
  fst (coordinator_node w st h) = Ok st' ->
  k <> "final_recommendation" -> st' !! k = st !! k.
Proof.
  intros Hrun Hk.
  destruct (st !! "query") as [q | ] eqn:Hq.
  - rewrite (coordinator_node_run _ _ _ _ Hq) in Hrun. simpl in Hrun.
    destruct (llm_reply w _ _) as [resp | e]; [ | discriminate ].
    injection Hrun as <-. now rewrite lookup_insert_ne.
  - rewrite (coordinator_node_no_query _ _ _ Hq) in Hrun. discriminate.
Qed.

Lemma elem_of_stages S :
  S ∈ stages ->
  S = "portfolio_analysis" \/ S = "budget_analysis" \/
  S = "market_research" \/ S = "risk_assessment" \/ S = "coordinator".
Proof.
  unfold stages. rewrite !elem_of_cons, elem_of_nil. tauto.
Qed.

(** C2.  In every run, the keys assigned while stage [S] is running are
    either none (the stage was not reached or raised) or exactly the slot
    [S] owns; no key is assigned twice and no stage is started twice; every
    assignment of the run is made
    by one of the five stages; and when the run returns, every stage has
    assigned exactly its own slot.  At the level of the state, a node that
    returns leaves every key but its own as it found it. *)
Theorem C2_each_stage_writes_its_own_slot (w : World) (q : string)
    (h : list Event) :
  let run := get_financial_advice w q h in
  (forall S, S ∈ stages ->
     writes_by S (snd run) = [] \/ writes_by S (snd run) = [own_slot S]) /\
  NoDup (written_keys (snd run)) /\
  NoDup (stage_order (snd run)) /\
  written_keys (snd run) = flat_map (fun S => writes_by S (snd run)) stages /\
  (is_ok (fst run) = true ->
   forall S, S ∈ stages -> writes_by S (snd run) = [own_slot S]) /\
  (forall a st h' st' k,
     fst (node_of w a st h') = Ok st' ->
     k <> own_slot (s_name (stage_of a)) -> st' !! k = st !! k) /\
  (forall st h' st' k,
     fst (coordinator_node w st h') = Ok st' ->
     k <> own_slot "coordinator" -> st' !! k = st !! k).
Proof.
  cbv zeta.
  repeat apply conj.
  - intros S HS.
    destruct (elem_of_stages S HS) as [-> | [-> | [-> | [-> | ->]]]];
      run_cases w q h; vm_compute; auto.
  - run_cases w q h; simpl; apply (bool_decide_unpack _);
      vm_compute; exact I.
  - run_cases w q h; simpl; apply (bool_decide_unpack _);
      vm_compute; exact I.
  - run_cases w q h; vm_compute; reflexivity.
  - intros Hok S HS. revert Hok.
    destruct (elem_of_stages S HS) as [-> | [-> | [-> | [-> | ->]]]];
      run_cases w q h; vm_compute; solve [ reflexivity | discriminate ].
  - intros a st h' st' k Hrun Hk.
    apply (specialist_node_frame w a st h'); [ exact Hrun | ].
    now destruct a.
  - intros st h' st' k Hrun Hk.
    now apply (coordinator_node_frame w st h').
Qed.

(** On the stub collaborators the run returns and each of the five stages
    has assigned exactly its own slot. *)
Lemma C2_each_stage_writes_its_own_slot_witness :
  let run := get_financial_advice stub_world sample_query [] in
  is_ok (fst run) = true /\
  map (fun S => writes_by S (snd run)) stages =
    [["portfolio_analysis"]; ["budget_analysis"]; ["market_data"];
     ["risk_assessment"]; ["final_recommendation"]].
Proof.
  destruct (C2_each_stage_writes_its_own_slot stub_world sample_query [])
    as (_ & _ & _ & _ & Hall & _ & _).
  split; [ reflexivity | ].
  specialize (Hall eq_refl). unfold stages. cbn [map].
  rewrite !Hall by (unfold stages; repeat constructor).
  reflexivity.
Defined.

(** ** C3: the composite prompt *)

Lemma substring_of_intro (pre s post : string) :
  substring_of s (pre +:+ s +:+ post).
Proof. now exists pre, post. Qed.

Lemma string_app_assoc (a b c : string) : (a +:+ b) +:+ c = a +:+ (b +:+ c).
Proof.
  induction a as [ | ch a IH]; [ reflexivity | ].
  change (String ch ((a +:+ b) +:+ c) = String ch (a +:+ (b +:+ c))).
  now rewrite IH.
Qed.

(** C3.  On a state record that holds the query and the four stage slots,
    the coordinator sends exactly one prompt, and that prompt is the fixed
    text with the query and the four slot values spliced in whole, in the
    order query, portfolio, budget, market, risk; each of the five values
    therefore occurs in the prompt unchanged. *)
Theorem C3_prompt_embeds_query_and_slots (w : World) (st : FinanceState)
    (h : list Event) (q p b m r : string) :
  st !! "query" = Some q ->
  st !! "portfolio_analysis" = Some p ->
  st !! "budget_analysis" = Some b ->
  st !! "market_data" = Some m ->
  st !! "risk_assessment" = Some r ->
  let prompt :=
    prompt_head +:+ q +:+ prompt_portfolio +:+ p +:+ prompt_budget +:+ b +:+
    prompt_market +:+ m +:+ prompt_risk +:+ r +:+ prompt_tail in
  (exists rl,
     llm_calls (snd (coordinator_node w st h)) =
       [([HumanMessage prompt], None, rl)]) /\
  substring_of q prompt /\ substring_of p prompt /\ substring_of b prompt /\
  substring_of m prompt /\ substring_of r prompt.
Proof.
  intros Hq Hp Hb Hm Hr prompt.
  split.
  - rewrite (coordinator_node_run _ _ _ _ Hq). cbv zeta.
    unfold get. rewrite Hp, Hb, Hm, Hr.
    unfold coordinator_events.
    destruct (llm_reply w _ _); eexists; reflexivity.
  - subst prompt. repeat split.
    + apply substring_of_intro.
    + rewrite <- !(string_app_assoc _ _ (p +:+ _)).
      apply substring_of_intro.
    + rewrite <- !(string_app_assoc _ _ (b +:+ _)).
      apply substring_of_intro.
    + rewrite <- !(string_app_assoc _ _ (m +:+ _)).
      apply substring_of_intro.
    + rewrite <- !(string_app_assoc _ _ (r +:+ _)).
      apply substring_of_intro.
Qed.

Lemma C3_prompt_embeds_query_and_slots_witness :
  (exists rl,
     llm_calls (snd (coordinator_node stub_world sample_state [])) =
       [([HumanMessage (coordinator_prompt sample_query "P" "B" "M" "R")],
         None, rl)]) /\
  substring_of sample_query (coordinator_prompt sample_query "P" "B" "M" "R").
Proof.
  destruct (C3_prompt_embeds_query_and_slots stub_world sample_state []
              sample_query "P" "B" "M" "R")
    as (Hcall & Hq & _); try (vm_compute; reflexivity).
  split; [ exact Hcall | exact Hq ].
Defined.

(** ** C4: a failing stage aborts the run *)

Lemma stage_text_raise_inv r e e' :
  r = Raise e -> stage_text r = Raise e' -> e' = e.
Proof. intros -> H. simpl in H. congruence. Qed.

Lemma stage_text_raise_ok r e v :
  r = Raise e -> stage_text r = Ok v -> False.
Proof. intros -> H. discriminate. Qed.

(** C4.  If, in a run, a call to one of the four agents raised [e], then
    the run raises the same [e] to its caller, no final state is produced,
    the chat model was not called at all, the coordinator stage was not
    started and [final_recommendation] was not assigned. *)
Theorem C4_stage_failure_aborts_run (w : World) (q : string) (h : list Event)
    (a : Agent) (i : list Message) (c : Config) (e : exn) :
  let run := get_financial_advice w q h in
  In (a, i, c, Raise e) (agent_calls (snd run)) ->
  fst run = Raise e /\
  fst (final_state_of w q h) = Raise e /\
  llm_calls (snd run) = [] /\
  ~ In "coordinator" (stage_order (snd run)) /\
  ~ In "final_recommendation" (written_keys (snd run)).
Proof.
  cbv zeta. run_cases w q h; simpl; intros Hin.
  all: repeat match goal with
         | H : _ \/ _ |- _ => destruct H as [H | H]
         | H : False |- _ => destruct H
         | H : (_, _, _, _) = (_, _, _, _) |- _ =>
             injection H as _ _ _ H
         end.
  all: try match goal with
         | H : ?r = Raise _, H' : stage_text ?r = Ok _ |- _ =>
             destruct (stage_text_raise_ok _ _ _ H H')
         end.
  all: match goal with
       | H : ?r = Raise _, H' : stage_text ?r = Raise _ |- _ =>
           rewrite (stage_text_raise_inv _ _ _ H H')
       end.
  all: repeat split; try reflexivity; simpl; intuition discriminate.
Qed.

Lemma C4_stage_failure_aborts_run_witness :
  let run := get_financial_advice market_down_world sample_query [] in
  fst run = Raise (ExternalError "market down") /\
  llm_calls (snd run) = [].
Proof.
  destruct (C4_stage_failure_aborts_run market_down_world sample_query []
              market_research_agent
              [HumanMessage ("Research this request: " +:+ sample_query)]
              (mkConfig "market_agent") (ExternalError "market down"))
    as (Hres & _ & Hllm & _).
  - vm_compute. right. right. left. reflexivity.
  - split; [ exact Hres | exact Hllm ].
Defined.

(** ** C5: one stateless synthesis call, returned verbatim *)

(** C5.  On a state that holds a query the coordinator calls the chat
    model exactly once, with a single message, without any configuration
    (no thread identifier) and without calling any agent; it stores the
    [content] of the reply as it is.  In a run there is at most one call to
    the chat model, never with a configuration, and when the run returns a
    text, that text is the [content] of the reply to that one call. *)
Theorem C5_single_stateless_synthesis_call (w : World) (q : string)
    (h : list Event) :
  let run := get_financial_advice w q h in
  (forall st h' q',
     st !! "query" = Some q' ->
     exists prompt rl,
       llm_calls (snd (coordinator_node w st h')) =
         [([HumanMessage prompt], None, rl)] /\
       agent_calls (snd (coordinator_node w st h')) = [] /\
       fst (coordinator_node w st h') =
         match rl with
         | Ok resp => Ok (<["final_recommendation" := content resp]> st)
         | Raise e => Raise e
         end) /\
  length (llm_calls (snd run)) <= 1 /\
  Forall (fun c => snd (fst c) = None) (llm_calls (snd run)) /\
  (forall text,
     fst run = Ok text ->
     exists prompt resp,
       llm_calls (snd run) = [([HumanMessage prompt], None, Ok resp)] /\
       text = content resp).
Proof.
  cbv zeta. split.
  { intros st h' q' Hq. rewrite (coordinator_node_run _ _ _ _ Hq). cbv zeta.
    unfold coordinator_events.
    destruct (llm_reply w _ _) as [resp | e];
      eexists; eexists; repeat split; reflexivity. }
  run_cases w q h; simpl.
  1,2: split; [ lia | ]; split; [ repeat constructor | ].
  3-6: split; [ lia | ]; split; [ constructor | ]; intros text Ht; discriminate.
  - intros text Ht. rewrite lookup_insert_eq in Ht. injection Ht as <-.
    eexists; eexists; split; reflexivity.
  - intros text Ht. discriminate.
Qed.

Lemma C5_single_stateless_synthesis_call_witness :
  let run := get_financial_advice stub_world sample_query [] in
  fst run = Ok "ADVICE" /\
  exists prompt resp,
    llm_calls (snd run) = [([HumanMessage prompt], None, Ok resp)] /\
    "ADVICE" = content resp.
Proof.
  destruct (C5_single_stateless_synthesis_call stub_world sample_query [])
    as (_ & _ & _ & Hret).
  split; [ reflexivity | ].
  apply Hret. reflexivity.
Defined.

(** The end-to-end scenario: stubbed stages "P", "B", "M", "R". *)
Example end_to_end_scenario :
  let run := get_financial_advice stub_world sample_query [] in
  fst run = Ok "ADVICE" /\
  llm_calls (snd run) =
    [([HumanMessage (coordinator_prompt sample_query "P" "B" "M" "R")],
      None, Ok (AIMessage "ADVICE"))].
Proof. split; vm_compute; reflexivity. Qed.

(** ** C6: slots that no stage has filled *)

(** The slots of the record as [get_financial_advice] creates it are all
    unpopulated, and the coordinator renders them as the empty string, not
    as the sentinel; so does a whole run whose four agents answer with an
    empty text. *)
Lemma C6_empty_slot_rendered_empty :
  let st := initial_state sample_query in
  unpopulated st "portfolio_analysis" /\
  unpopulated st "budget_analysis" /\
  unpopulated st "market_data" /\
  unpopulated st "risk_assessment" /\
  prompt_sent stub_world st [] =
    Some (coordinator_prompt sample_query
            EmptyString EmptyString EmptyString EmptyString) /\
  prompt_sent stub_world st [] <>
    Some (coordinator_prompt sample_query "N/A" "N/A" "N/A" "N/A") /\
  llm_calls (snd (get_financial_advice empty_text_world sample_query [])) =
    [([HumanMessage (coordinator_prompt sample_query
                       EmptyString EmptyString EmptyString EmptyString)],
      None, Ok (AIMessage "ADVICE"))].
Proof.
  cbv zeta.
  split; [ right; vm_compute; reflexivity | ].
  split; [ right; vm_compute; reflexivity | ].
  split; [ right; vm_compute; reflexivity | ].
  split; [ right; vm_compute; reflexivity | ].
  split; [ vm_compute; reflexivity | ].
  split.
  - vm_compute. discriminate.
  - vm_compute. reflexivity.
Qed.

(** C6, amended.  On a state that holds the query the coordinator does not
    fail on a missing stage slot: it sends the prompt in which every stage
    slot whose key is absent is rendered as "N/A", and every stage slot
    that is present is rendered as its value, the empty string included;
    whether it returns depends on the chat model's reply only. *)
Theorem C6_absent_slot_rendered_as_sentinel (w : World) (st : FinanceState)
    (h : list Event) (q : string) :
  st !! "query" = Some q ->
  let render := fun key =>
    match st !! key with Some v => v | None => "N/A" end in
  prompt_sent w st h =
    Some (coordinator_prompt q (render "portfolio_analysis")
            (render "budget_analysis") (render "market_data")
            (render "risk_assessment")) /\
  (forall key, st !! key = None -> render key = "N/A") /\
  (forall key v, st !! key = Some v -> render key = v) /\
  (exists i rl,
     llm_calls (snd (coordinator_node w st h)) = [(i, None, rl)] /\
     fst (coordinator_node w st h) =
       match rl with
       | Ok resp => Ok (<["final_recommendation" := content resp]> st)
       | Raise e => Raise e
       end).
Proof.
  intros Hq render. unfold prompt_sent.
  rewrite (coordinator_node_run _ _ _ _ Hq). cbv zeta.
  unfold coordinator_events. fold (get st).
  split; [ | split; [ | split ] ].
  - destruct (llm_reply w _ _); reflexivity.
  - intros key Hk. subst render. simpl. now rewrite Hk.
  - intros key v Hk. subst render. simpl. now rewrite Hk.
  - destruct (llm_reply w _ _); eexists; eexists; split; reflexivity.
Qed.

Lemma C6_absent_slot_rendered_as_sentinel_witness :
  prompt_sent stub_world partial_state [] =
    Some (coordinator_prompt sample_query "N/A" "B" "N/A" "N/A").
Proof.
  destruct (C6_absent_slot_rendered_as_sentinel stub_world partial_state []
              sample_query) as (Hprompt & _).
  - vm_compute. reflexivity.
  - rewrite Hprompt. vm_compute. reflexivity.
Defined.

(** ** C7: the last message is the stage's result *)

Lemma stage_text_empty_inv r e :
  r = Ok [] -> stage_text r = Raise e -> e = IndexError.
Proof. intros -> H. simpl in H. congruence. Qed.

Lemma stage_text_empty_ok r v :
  r = Ok [] -> stage_text r = Ok v -> False.
Proof. intros -> H. discriminate. Qed.

Lemma s_agent_stage_of a : s_agent (stage_of a) = a.
Proof. now destruct a. Qed.

(** C7.  A specialist node on a state that holds the query makes one call
    to its agent.  If the reply is a message sequence with a last message,
    the node returns the state with the [content] of that last message
    stored under the stage's key, and assigns nothing else; if the sequence
    is empty the node raises [IndexError] and assigns nothing.  In a run,
    an agent that replied with the empty sequence makes the whole run raise
    [IndexError], and the chat model is not called. *)
Theorem C7_last_message_is_stage_result (w : World) (a : Agent)
    (st : FinanceState) (h : list Event) (q : string) :
  st !! "query" = Some q ->
  let run := node_of w a st h in
  (exists i c r,
     agent_calls (snd run) = [(a, i, c, r)] /\
     match r with
     | Raise e => fst run = Raise e /\ written_keys (snd run) = []
     | Ok msgs =>
         match last msgs with
         | Some m =>
             fst run = Ok (<[s_key (stage_of a) := content m]> st) /\
             written_keys (snd run) = [s_key (stage_of a)]
         | None =>
             msgs = [] /\ fst run = Raise IndexError /\
             written_keys (snd run) = []
         end
     end) /\
  (forall q' h' a' i' c',
     let whole := get_financial_advice w q' h' in
     In (a', i', c', Ok []) (agent_calls (snd whole)) ->
     fst whole = Raise IndexError /\ llm_calls (snd whole) = []).
Proof.
  intros Hq run. subst run. split.
  - rewrite node_of_template, (specialist_node_run _ _ _ _ _ Hq). cbv zeta.
    unfold node_events, stage_text. rewrite s_agent_stage_of.
    destruct (agent_reply w _ _ _ _) as [msgs | e].
    + destruct (last msgs) as [m | ] eqn:Hlast.
      * eexists _, _, (Ok msgs). split; [ reflexivity | ].
        rewrite Hlast. split; reflexivity.
      * eexists _, _, (Ok msgs). split; [ reflexivity | ].
        rewrite Hlast. apply last_None in Hlast. repeat split; assumption.
    + eexists _, _, (Raise e). split; [ reflexivity | ]. split; reflexivity.
  - intros q' h' a' i' c'. cbv zeta.
    run_cases w q' h'; simpl; intros Hin.
    all: repeat match goal with
           | H : _ \/ _ |- _ => destruct H as [H | H]
           | H : False |- _ => destruct H
           | H : (_, _, _, _) = (_, _, _, _) |- _ =>
               injection H as _ _ _ H
           end.
    all: try match goal with
           | H : ?r = Ok [], H' : stage_text ?r = Ok _ |- _ =>
               destruct (stage_text_empty_ok _ _ H H')
           end.
    all: match goal with
         | H : ?r = Ok [], H' : stage_text ?r = Raise _ |- _ =>
             rewrite (stage_text_empty_inv _ _ H H')
         end.
    all: split; reflexivity.
Qed.

Lemma C7_last_message_is_stage_result_witness :
  fst (portfolio_analysis_node stub_world (initial_state sample_query) []) =
    Ok (<["portfolio_analysis" := "P"]> (initial_state sample_query)) /\
  fst (get_financial_advice silent_budget_world sample_query []) =
    Raise IndexError.
Proof.
  destruct (C7_last_message_is_stage_result stub_world portfolio_agent
              (initial_state sample_query) [] sample_query)
    as ((i & c & r & Hcall & Hres) & _).
  { vm_compute. reflexivity. }
  destruct (C7_last_message_is_stage_result silent_budget_world
              portfolio_agent (initial_state sample_query) [] sample_query)
    as (_ & Hrun).
  { vm_compute. reflexivity. }
  split.
  - vm_compute in Hcall. injection Hcall as _ _ <-. exact (proj1 Hres).
  - apply (Hrun sample_query [] budget_agent
             [HumanMessage ("Analyze this request: " +:+ sample_query)]
             (mkConfig "budget_agent")).
    vm_compute. right. left. reflexivity.
Defined.

(** ** C8 and C9: what each agent is called with *)

(** Every call a run makes to an agent carries that agent's instruction
    and that agent's thread identifier. *)
Lemma run_agent_call_shape w q h a i c r :
  In (a, i, c, r) (agent_calls (snd (get_financial_advice w q h))) ->
  i = [HumanMessage (s_prefix (stage_of a) +:+ q)] /\
  c = mkConfig (s_thread (stage_of a)).
Proof.
  run_cases w q h; simpl; intros Hin.
  all: repeat match goal with
         | H : _ \/ _ |- _ => destruct H as [H | H]
         | H : False |- _ => destruct H
         | H : (_, _, _, _) = (_, _, _, _) |- _ =>
             injection H as <- <- <- _
         end.
  all: split; reflexivity.
Qed.

(** C8.  Take any two calls to agents, made in the same run or in two
    different runs (other collaborators, another query, a later history).
    Each carries the fixed thread identifier of the agent it addresses; if
    both address the same agent they carry the same configuration, and if
    they address different agents their thread identifiers differ. *)
Theorem C8_memory_handle_per_role (w1 w2 : World) (q1 q2 : string)
    (h1 h2 : list Event) (a1 a2 : Agent) (i1 i2 : list Message)
    (c1 c2 : Config) (r1 r2 : result (list Message)) :
  In (a1, i1, c1, r1) (agent_calls (snd (get_financial_advice w1 q1 h1))) ->
  In (a2, i2, c2, r2) (agent_calls (snd (get_financial_advice w2 q2 h2))) ->
  thread_id c1 = handle_of a1 /\
  thread_id c2 = handle_of a2 /\
  (a1 = a2 -> c1 = c2) /\
  (a1 <> a2 -> thread_id c1 <> thread_id c2).
Proof.
  intros H1 H2.
  destruct (run_agent_call_shape _ _ _ _ _ _ _ H1) as [_ ->].
  destruct (run_agent_call_shape _ _ _ _ _ _ _ H2) as [_ ->].
  split; [ now destruct a1 | ]. split; [ now destruct a2 | ].
  split; [ now intros -> | ].
  destruct a1, a2; simpl; intros Hne; congruence.
Qed.

(** Two runs one after the other, with different collaborators and
    queries: the budget planner of the first run and the portfolio analyst
    of the second are addressed on different handles. *)
Lemma C8_memory_handle_per_role_witness :
  let first := snd (get_financial_advice stub_world sample_query []) in
  let second := snd (get_financial_advice market_down_world "savings?" first) in
  In (budget_agent,
      [HumanMessage ("Analyze this request: " +:+ sample_query)],
      mkConfig "budget_agent", Ok [AIMessage "B"]) (agent_calls first) /\
  In (portfolio_agent,
      [HumanMessage ("Analyze this request: " +:+ "savings?")],
      mkConfig "portfolio_agent", Ok [AIMessage "thinking"; AIMessage "P"])
     (agent_calls second) /\
  thread_id (mkConfig "budget_agent") <> thread_id (mkConfig "portfolio_agent").
Proof.
  cbv zeta.
  assert (H1 : In (budget_agent,
                   [HumanMessage ("Analyze this request: " +:+ sample_query)],
                   mkConfig "budget_agent", Ok [AIMessage "B"])
                  (agent_calls
                     (snd (get_financial_advice stub_world sample_query []))))
    by (vm_compute; right; left; reflexivity).
  assert (H2 : In (portfolio_agent,
                   [HumanMessage ("Analyze this request: " +:+ "savings?")],
                   mkConfig "portfolio_agent",
                   Ok [AIMessage "thinking"; AIMessage "P"])
                  (agent_calls
                     (snd (get_financial_advice market_down_world "savings?"
                             (snd (get_financial_advice stub_world
                                     sample_query []))))))
    by (vm_compute; left; reflexivity).
  split; [ exact H1 | ]. split; [ exact H2 | ].
  apply (C8_memory_handle_per_role _ _ _ _ _ _ _ _ _ _ _ _ _ _ H1 H2).
  discriminate.
Defined.

(** C9.  A specialist node on a state that holds query [q] makes one call,
    to its own agent, whose input is the single message made of the stage's
    prefix followed by [q]; and every call to an agent in a run on [q]
    has this input. *)
Theorem C9_stage_instruction_prefix (w : World) (q : string) (a : Agent) :
  (forall st h,
     st !! "query" = Some q ->
     exists c r,
       agent_calls (snd (node_of w a st h)) =
         [(a, [HumanMessage (instruction_prefix a +:+ q)], c, r)]) /\
  (forall h i c r,
     In (a, i, c, r) (agent_calls (snd (get_financial_advice w q h))) ->
     i = [HumanMessage (instruction_prefix a +:+ q)]).
Proof.
  split.
  - intros st h Hq.
    rewrite node_of_template, (specialist_node_run _ _ _ _ _ Hq). cbv zeta.
    unfold node_events. rewrite s_agent_stage_of.
    replace (s_prefix (stage_of a)) with (instruction_prefix a)
      by now destruct a.
    destruct (stage_text _); eexists; eexists; reflexivity.
  - intros h i c r Hin.
    destruct (run_agent_call_shape _ _ _ _ _ _ _ Hin) as [-> _].
    now destruct a.
Qed.

Lemma C9_stage_instruction_prefix_witness :
  exists c r,
    agent_calls (snd (risk_assessment_node stub_world
                        (initial_state sample_query) [])) =
      [(risk_assessment_agent,
        [HumanMessage ("Assess risks for: " +:+ sample_query)], c, r)].
Proof.
  apply (C9_stage_instruction_prefix stub_world sample_query
           risk_assessment_agent).
  vm_compute. reflexivity.
Defined.

(** ** C10: the fields no stage touches *)

(** A specialist node does not read [user_profiles]: with another value
    under that key it makes the same call, emits the same events and
    returns the same state up to that key. *)
Lemma specialist_node_ignores_user_profiles w a st v h :
  node_of w a (<["user_profiles" := v]> st) h =
    (result_map (insert "user_profiles" v) (fst (node_of w a st h)),
     snd (node_of w a st h)).
Proof.
  rewrite node_of_template.
  destruct (st !! "query") as [q | ] eqn:Hq.
  - assert (Hq' : <["user_profiles" := v]> st !! "query" = Some q)
      by now rewrite lookup_insert_ne.
    rewrite (specialist_node_run _ _ _ _ _ Hq),
            (specialist_node_run _ _ _ _ _ Hq'). cbv zeta. simpl.
    destruct (stage_text _) as [x | e]; [ | reflexivity ].
    simpl. rewrite insert_insert_ne by now destruct a. reflexivity.
  - assert (Hq' : <["user_profiles" := v]> st !! "query" = None)
      by now rewrite lookup_insert_ne.
    rewrite (specialist_node_no_query _ _ _ _ Hq),
            (specialist_node_no_query _ _ _ _ Hq'). reflexivity.
Qed.

(** Neither does the coordinator. *)
Lemma coordinator_node_ignores_user_profiles w st v h :
  coordinator_node w (<["user_profiles" := v]> st) h =
    (result_map (insert "user_profiles" v) (fst (coordinator_node w st h)),
     snd (coordinator_node w st h)).
Proof.
  destruct (st !! "query") as [q | ] eqn:Hq.
  - assert (Hq' : <["user_profiles" := v]> st !! "query" = Some q)
      by now rewrite lookup_insert_ne.
    rewrite (coordinator_node_run _ _ _ _ Hq),
            (coordinator_node_run _ _ _ _ Hq'). cbv zeta.
    rewrite !get_insert_ne by discriminate. simpl.
    destruct (llm_reply w _ _) as [resp | e]; [ | reflexivity ].
    simpl. rewrite insert_insert_ne by discriminate. reflexivity.
  - assert (Hq' : <["user_profiles" := v]> st !! "query" = None)
      by now rewrite lookup_insert_ne.
    rewrite (coordinator_node_no_query _ _ _ Hq),
            (coordinator_node_no_query _ _ _ Hq'). reflexivity.
Qed.

(** C10.  The record is created with [user_profiles] set to the empty
    string.  No stage reads that key (changing its value changes neither
    the events of a node nor the rest of the state it returns), and a run
    assigns neither [user_profiles] nor [query].  In the final state of a
    run that returns, [user_profiles] is still the empty string and [query]
    is the query the run was started with. *)
Theorem C10_user_profiles_and_query_untouched (w : World) (q : string)
    (h : list Event) :
  let run := final_state_of w q h in
  initial_state q !! "user_profiles" = Some EmptyString /\
  initial_state q !! "query" = Some q /\
  (forall a st v h',
     node_of w a (<["user_profiles" := v]> st) h' =
       (result_map (insert "user_profiles" v) (fst (node_of w a st h')),
        snd (node_of w a st h'))) /\
  (forall st v h',
     coordinator_node w (<["user_profiles" := v]> st) h' =
       (result_map (insert "user_profiles" v)
          (fst (coordinator_node w st h')),
        snd (coordinator_node w st h'))) /\
  ~ In "user_profiles" (written_keys (snd run)) /\
  ~ In "query" (written_keys (snd run)) /\
  (forall st, fst run = Ok st ->
     st !! "user_profiles" = Some EmptyString /\ st !! "query" = Some q).
Proof.
  cbv zeta.
  split; [ reflexivity | ]. split; [ apply initial_state_query | ].
  split; [ apply specialist_node_ignores_user_profiles | ].
  split; [ apply coordinator_node_ignores_user_profiles | ].
  run_cases w q h; simpl.
  all: split; [ intuition discriminate | ].
  all: split; [ intuition discriminate | ].
  all: intros st Hst; try discriminate.
  injection Hst as <-.
  rewrite !lookup_insert_ne by discriminate.
  split; [ reflexivity | apply initial_state_query ].
Qed.

Lemma C10_user_profiles_and_query_untouched_witness :
  match fst (final_state_of stub_world sample_query []) with
  | Ok st =>
      st !! "user_profiles" = Some EmptyString /\
      st !! "query" = Some sample_query
  | Raise _ => False
  end.
Proof.
  destruct (C10_user_profiles_and_query_untouched stub_world sample_query [])
    as (_ & _ & _ & _ & _ & _ & Hfinal).
  assert (Hok : is_ok (fst (final_state_of stub_world sample_query [])) = true)
    by (vm_compute; reflexivity).
  destruct (fst (final_state_of stub_world sample_query [])) as [st | e].
  - apply Hfinal. reflexivity.
  - discriminate Hok.
Defined.

(** * Further properties of the engine *)

(** ** Failure of the synthesis call *)

(** X1.  If the call to the chat model raised [e], the run raises [e] and
    there is no final state, although by then all five stages were started,
    the four agents were called once each and the four stage slots were
    assigned; [final_recommendation] is not assigned. *)
Theorem X1_synthesis_failure_propagates (w : World) (q : string)
    (h : list Event) (i : list Message) (c : option Config) (e : exn) :
  let run := get_financial_advice w q h in
  In (i, c, Raise e) (llm_calls (snd run)) ->
  fst run = Raise e /\
  fst (final_state_of w q h) = Raise e /\
  stage_order (snd run) = stages /\
  map (fun call => fst (fst (fst call))) (agent_calls (snd run)) =
    [portfolio_agent; budget_agent; market_research_agent;
     risk_assessment_agent] /\
  written_keys (snd run) =
    ["portfolio_analysis"; "budget_analysis"; "market_data";
     "risk_assessment"].
Proof.
  cbv zeta. run_cases w q h; simpl; intros Hin.
  all: repeat match goal with
         | H : _ \/ _ |- _ => destruct H as [H | H]
         | H : False |- _ => destruct H
         end.
  - discriminate.
  - injection Hin as _ _ ->. repeat split; reflexivity.
Qed.

Lemma X1_synthesis_failure_propagates_witness :
  let run := get_financial_advice llm_down_world sample_query [] in
  fst run = Raise (ExternalError "rate limit") /\
  written_keys (snd run) =
    ["portfolio_analysis"; "budget_analysis"; "market_data";
     "risk_assessment"].
Proof.
  destruct (X1_synthesis_failure_propagates llm_down_world sample_query []
              [HumanMessage (coordinator_prompt sample_query "P" "B" "M" "R")]
              None (ExternalError "rate limit"))
    as (Hres & _ & _ & _ & Hkeys).
  - vm_compute. left. reflexivity.
  - split; [ exact Hres | exact Hkeys ].
Defined.

(** ** A state without a query *)

(** X2.  Every node reads [state['query']] before it calls anything: on a
    state without that key each of the four specialist nodes and the
    coordinator raise [KeyError] for [query], having printed their notice
    only; no agent and no chat model is called and nothing is assigned.
    (Missing stage slots, in contrast, do not stop the coordinator.) *)
Theorem X2_missing_query_raises_key_error (w : World) (st : FinanceState)
    (h : list Event) :
  st !! "query" = None ->
  (forall a,
     fst (node_of w a st h) = Raise (KeyError "query") /\
     snd (node_of w a st h) = [EPrint (s_notice (stage_of a))]) /\
  fst (coordinator_node w st h) = Raise (KeyError "query") /\
  llm_calls (snd (coordinator_node w st h)) = [] /\
  written_keys (snd (coordinator_node w st h)) = [].
Proof.
  intros Hq. split.
  - intros a. rewrite node_of_template.
    rewrite (specialist_node_no_query _ _ _ _ Hq). split; reflexivity.
  - rewrite (coordinator_node_no_query _ _ _ Hq). repeat split; reflexivity.
Qed.

Lemma X2_missing_query_raises_key_error_witness :
  fst (budget_analysis_node stub_world ∅ []) = Raise (KeyError "query") /\
  fst (coordinator_node stub_world ∅ []) = Raise (KeyError "query").
Proof.
  destruct (X2_missing_query_raises_key_error stub_world ∅ [])
    as (Hnodes & Hcoord & _).
  - reflexivity.
  - split; [ exact (proj1 (Hnodes budget_agent)) | exact Hcoord ].
Defined.

(** ** From the agents' replies to the prompt and the final state *)

(** X3.  Whenever a run calls the chat model, the four agents were called
    before, in the order portfolio, budget, market, risk, each reply had a
    last message, and the prompt is the coordinator's text around the query
    and the [content] of those four last messages, in this order. *)
Theorem X3_prompt_built_from_replies (w : World) (q : string)
    (h : list Event) (i : list Message) (c : option Config)
    (rl : result Message) :
  let run := get_financial_advice w q h in
  In (i, c, rl) (llm_calls (snd run)) ->
  exists r1 r2 r3 r4 p b m r,
    map (fun call => (fst (fst (fst call)), snd call)) (agent_calls (snd run)) =
      [(portfolio_agent, r1); (budget_agent, r2);
       (market_research_agent, r3); (risk_assessment_agent, r4)] /\
    stage_text r1 = Ok p /\ stage_text r2 = Ok b /\
    stage_text r3 = Ok m /\ stage_text r4 = Ok r /\
    i = [HumanMessage (coordinator_prompt q p b m r)].
Proof.
  cbv zeta. run_cases w q h; simpl; intros Hin.
  all: repeat match goal with
         | H : _ \/ _ |- _ => destruct H as [H | H]
         | H : False |- _ => destruct H
         end.
  all: injection Hin as <- _ _.
  all: eexists _, _, _, _, _, _, _, _.
  all: repeat split; try eassumption; reflexivity.
Qed.

Lemma X3_prompt_built_from_replies_witness :
  exists r1 r2 r3 r4 p b m r,
    map (fun call => (fst (fst (fst call)), snd call))
        (agent_calls (snd (get_financial_advice stub_world sample_query []))) =
      [(portfolio_agent, r1); (budget_agent, r2);
       (market_research_agent, r3); (risk_assessment_agent, r4)] /\
    stage_text r1 = Ok p /\ stage_text r2 = Ok b /\
    stage_text r3 = Ok m /\ stage_text r4 = Ok r /\
    [HumanMessage (coordinator_prompt sample_query "P" "B" "M" "R")] =
      [HumanMessage (coordinator_prompt sample_query p b m r)].
Proof.
  apply (X3_prompt_built_from_replies stub_world sample_query []
           [HumanMessage (coordinator_prompt sample_query "P" "B" "M" "R")]
           None (Ok (AIMessage "ADVICE"))).
  vm_compute. left. reflexivity.
Defined.

(** X4.  The final state of a run that returns has the keys of the initial
    state, no more and no less; under each stage key it holds the [content]
    of the last message of that stage's agent, under
    [final_recommendation] the [content] of the chat model's reply, and
    that is the text [get_financial_advice] returns. *)
Theorem X4_final_state_holds_the_results (w : World) (q : string)
    (h : list Event) (st : FinanceState) :
  fst (final_state_of w q h) = Ok st ->
  exists r1 r2 r3 r4 p b m r i resp,
    map (fun call => (fst (fst (fst call)), snd call))
        (agent_calls (snd (final_state_of w q h))) =
      [(portfolio_agent, r1); (budget_agent, r2);
       (market_research_agent, r3); (risk_assessment_agent, r4)] /\
    stage_text r1 = Ok p /\ stage_text r2 = Ok b /\
    stage_text r3 = Ok m /\ stage_text r4 = Ok r /\
    llm_calls (snd (final_state_of w q h)) = [(i, None, Ok resp)] /\
    st !! "portfolio_analysis" = Some p /\
    st !! "budget_analysis" = Some b /\
    st !! "market_data" = Some m /\
    st !! "risk_assessment" = Some r /\
    st !! "final_recommendation" = Some (content resp) /\
    fst (get_financial_advice w q h) = Ok (content resp) /\
    dom st = dom (initial_state q).
Proof.
  run_cases w q h; simpl; intros Hst; try discriminate.
  injection Hst as <-.
  eexists _, _, _, _, _, _, _, _, _, _.
  split; [ reflexivity | ].
  do 4 (split; [ eassumption | ]).
  split; [ reflexivity | ].
  do 4 (split;
        [ now rewrite !lookup_insert_ne, lookup_insert_eq by discriminate | ]).
  split; [ now rewrite lookup_insert_eq | ].
  split; [ now rewrite lookup_insert_eq | ].
  unfold initial_state. rewrite !dom_insert_L. set_solver.
Qed.

Lemma X4_final_state_holds_the_results_witness :
  exists st,
    fst (final_state_of stub_world sample_query []) = Ok st /\
    st !! "market_data" = Some "M" /\
    st !! "final_recommendation" = Some "ADVICE".
Proof.
  destruct (fst (final_state_of stub_world sample_query [])) as [st | e] eqn:E.
  - exists st. split; [ reflexivity | ].
    destruct (X4_final_state_holds_the_results stub_world sample_query [] st E)
      as (r1 & r2 & r3 & r4 & p & b & m & r & i & resp & Hcalls & _ & _ & H3
          & _ & Hllm & _ & _ & Hm & _ & Hf & _).
    vm_compute in Hcalls. injection Hcalls as _ _ <- _.
    vm_compute in Hllm. injection Hllm as _ <-.
    simpl in H3. injection H3 as <-.
    split; [ exact Hm | exact Hf ].
  - assert (Hok : is_ok (fst (final_state_of stub_world sample_query []))
                  = true) by (vm_compute; reflexivity).
    rewrite E in Hok. discriminate.
Defined.

(** ** Where the exceptions of a run come from *)




(** * The command-line driver *)

Section Driver.

Context (w : World) (so : StrOps) (show : exn -> string).

(** The queries the loop runs the engine on. *)
Lemma main_loop_queries fuel : forall script h q,
  In q (queries_run (snd (main_loop w so show fuel script h))) ->
  q <> EmptyString /\ str_lower so q <> "quit" /\
  exists text, In (Line text) script /\ q = str_strip so text.
Proof.
  induction fuel as [ | fuel IH]; intros script h q; [ intros [] | ].
  cbn [main_loop]. destruct script as [ | item rest]; cbn [next_input].
  - specialize (IH [] h q).
    destruct (main_loop w so show fuel [] h) as [status t]. exact IH.
  - destruct item as [text | | ].
    + destruct (String.eqb (str_lower so (str_strip so text)) "quit") eqn:Equit;
        [ intros [] | ].
      destruct (String.eqb (str_strip so text) EmptyString) eqn:Eblank.
      * specialize (IH rest h q).
        destruct (main_loop w so show fuel rest h) as [status t].
        cbn. intros Hin. destruct (IH Hin) as (H1 & H2 & text' & H3 & H4).
        repeat split; try assumption. exists text'. split; [ now right | exact H4 ].
      * destruct (get_financial_advice w (str_strip so text) h)
          as [outcome events].
        specialize (IH rest (h ++ events) q).
        destruct (main_loop w so show fuel rest (h ++ events)) as [status t].
        cbn [snd queries_run]. intros [<- | Hin].
        -- apply String.eqb_neq in Equit, Eblank.
           repeat split; try assumption. exists text. split; [ now left | reflexivity ].
        -- assert (Hin' : In q (queries_run t)).
           { destruct outcome; exact Hin. }
           destruct (IH Hin') as (H1 & H2 & text' & H3 & H4).
           repeat split; try assumption.
           exists text'. split; [ now right | exact H4 ].
    + intros [].
    + specialize (IH rest h q).
      destruct (main_loop w so show fuel rest h) as [status t].
      cbn. intros Hin. destruct (IH Hin) as (H1 & H2 & text' & H3 & H4).
      repeat split; try assumption. exists text'. split; [ now right | exact H4 ].
Qed.

(** X5.  The driver runs the engine only on real questions: every query
    passed to [get_financial_advice] is the stripped text of a line that
    was typed, it is not empty, and its lower-case form is not [quit]. *)
Theorem X5_driver_runs_only_real_questions (fuel : nat)
    (script : list Input) (q : string) :
  In q (queries_run (snd (main w so show fuel script))) ->
  q <> EmptyString /\ str_lower so q <> "quit" /\
  exists text, In (Line text) script /\ q = str_strip so text.
Proof.
  unfold main. intros Hin. apply (main_loop_queries fuel script [] q).
  destruct (main_loop w so show fuel script []) as [status t].
  exact Hin.
Qed.

(** One round on an answer that does not end the loop: the rest of the
    script is handled by the remaining rounds. *)
Lemma main_loop_continues fuel item rest h :
  stops so item = false ->
  main_loop w so show (S fuel) (item :: rest) h =
    (fst (main_loop w so show fuel rest (fst (round_of w so show item h))),
     DInput input_prompt item :: snd (round_of w so show item h) ++
     snd (main_loop w so show fuel rest (fst (round_of w so show item h)))).
Proof.
  intros Hstop.
  destruct item as [text | | ]; [ | discriminate | ];
    cbn [main_loop next_input round_of].
  - cbn in Hstop. rewrite Hstop.
    destruct (String.eqb (str_strip so text) EmptyString).
    + cbn [fst snd app]. now destruct (main_loop w so show fuel rest h).
    + destruct (get_financial_advice w (str_strip so text) h)
        as [outcome events].
      cbn [fst snd app].
      now destruct (main_loop w so show fuel rest (h ++ events)).
  - cbn [fst snd app]. now destruct (main_loop w so show fuel rest h).
Qed.

Lemma round_of_reads_nothing item h :
  inputs_read (snd (round_of w so show item h)) = [].
Proof.
  unfold round_of. destruct item as [text | | ]; [ | reflexivity | reflexivity ].
  destruct (String.eqb (str_strip so text) EmptyString); [ reflexivity | ].
  destruct (get_financial_advice w (str_strip so text) h) as [outcome events].
  now destruct outcome.
Qed.

Lemma inputs_read_app t1 t2 :
  inputs_read (t1 ++ t2) = inputs_read t1 ++ inputs_read t2.
Proof.
  induction t1 as [ | ev t1 IH]; [ reflexivity | ].
  destruct ev; simpl; now rewrite IH.
Qed.

(** One round on an answer that ends the loop. *)
Lemma main_loop_stops fuel item rest h :
  stops so item = true ->
  exists farewell,
    main_loop w so show (S fuel) (item :: rest) h =
      (Exited, [DInput input_prompt item; DPrint farewell]).
Proof.
  intros Hstop. cbn [main_loop next_input].
  destruct item as [text | | ]; [ | | discriminate ].
  - cbn in Hstop. rewrite Hstop. now eexists.
  - now eexists.
Qed.

Lemma main_loop_exits pre : forall fuel item post h,
  Forall (fun i => stops so i = false) pre ->
  stops so item = true ->
  length pre < fuel ->
  main_loop w so show fuel (pre ++ item :: post) h =
    main_loop w so show (S (length pre)) (pre ++ [item]) h /\
  fst (main_loop w so show fuel (pre ++ item :: post) h) = Exited /\
  inputs_read (snd (main_loop w so show fuel (pre ++ item :: post) h)) =
    pre ++ [item].
Proof.
  induction pre as [ | first pre IH]; intros fuel item post h Hpre Hitem Hfuel.
  - destruct fuel as [ | fuel]; [ lia | ]. cbn [app length].
    destruct (main_loop_stops fuel item post h Hitem) as [bye E].
    destruct (main_loop_stops 0 item [] h Hitem) as [bye' E'].
    rewrite E. split; [ | split; reflexivity ].
    rewrite E'. cbn [main_loop next_input] in E, E'.
    destruct item as [text | | ]; [ | congruence | discriminate ].
    cbn in Hitem. rewrite Hitem in E, E'. congruence.
  - destruct fuel as [ | fuel]; [ cbn in Hfuel; lia | ].
    apply Forall_cons in Hpre. destruct Hpre as [Hfirst Hpre].
    cbn [app length].
    assert (Hround :
      forall n rest1 rest2 h,
        (forall h', main_loop w so show n rest1 h' =
                    main_loop w so show (S (length pre)) rest2 h') ->
        main_loop w so show (S n) (first :: rest1) h =
        main_loop w so show (S (S (length pre))) (first :: rest2) h).
    { intros n rest1 rest2 h0 Hsame. cbn [main_loop next_input].
      destruct first as [text | | ]; [ | discriminate | ].
      - cbn in Hfirst. rewrite Hfirst.
        destruct (String.eqb (str_strip so text) EmptyString).
        + now rewrite Hsame.
        + destruct (get_financial_advice w (str_strip so text) h0).
          now rewrite Hsame.
      - now rewrite Hsame. }
    assert (Hfuel' : length pre < fuel) by (cbn in Hfuel; lia).
    split.
    + apply Hround. intros h'.
      apply (IH fuel item post h' Hpre Hitem Hfuel').
    + rewrite (main_loop_continues fuel first (pre ++ item :: post) h Hfirst).
      cbn [fst snd inputs_read].
      rewrite inputs_read_app, round_of_reads_nothing.
      destruct (IH fuel item post (fst (round_of w so show first h))
                  Hpre Hitem Hfuel') as (_ & Hexit & Hread).
      split; [ exact Hexit | ]. cbn [app]. now rewrite Hread.
Qed.

(** X6.  The first answer that ends the loop, an interrupt or a line that
    reads [quit], is the last one asked for.  With enough rounds the
    driver exits there; what follows in the script is never read and does
    not change anything the driver does. *)
Theorem X6_driver_exits_at_first_stop (fuel : nat) (pre post : list Input)
    (item : Input) :
  Forall (fun i => stops so i = false) pre ->
  stops so item = true ->
  length pre < fuel ->
  main w so show fuel (pre ++ item :: post) =
    main w so show (S (length pre)) (pre ++ [item]) /\
  fst (main w so show fuel (pre ++ item :: post)) = Exited /\
  inputs_read (snd (main w so show fuel (pre ++ item :: post))) =
    pre ++ [item].
Proof.
  intros Hpre Hitem Hfuel. unfold main.
  destruct (main_loop_exits pre fuel item post [] Hpre Hitem Hfuel)
    as (Hsame & Hexit & Hread).
  rewrite Hsame in *.
  destruct (main_loop w so show (S (length pre)) (pre ++ [item]) [])
    as [status t].
  cbn [fst snd] in *. rewrite inputs_read_app.
  repeat split; assumption.
Qed.

Lemma main_loop_never_exits fuel : forall script h,
  Forall (fun i => stops so i = false) script ->
  fst (main_loop w so show fuel script h) = StillRunning /\
  length (inputs_read (snd (main_loop w so show fuel script h))) = fuel.
Proof.
  induction fuel as [ | fuel IH]; intros script h Hscript;
    [ split; reflexivity | ].
  destruct script as [ | item rest].
  - cbn [main_loop next_input].
    destruct (IH [] h Hscript) as [Hs Hn].
    destruct (main_loop w so show fuel [] h) as [status t].
    cbn in *. split; [ exact Hs | now rewrite Hn ].
  - apply Forall_cons in Hscript. destruct Hscript as [Hitem Hrest].
    rewrite (main_loop_continues fuel item rest h Hitem).
    cbn [fst snd inputs_read].
    rewrite inputs_read_app, round_of_reads_nothing.
    destruct (IH rest (fst (round_of w so show item h)) Hrest) as [Hs Hn].
    split; [ exact Hs | ]. cbn. now rewrite Hn.
Qed.


Lemma main_loop_at_eof fuel : forall h,
  main_loop w so show fuel [] h =
    (StillRunning, concat (repeat eof_round fuel)).
Proof.
  induction fuel as [ | fuel IH]; intros h; [ reflexivity | ].
  cbn [main_loop next_input]. rewrite IH. reflexivity.
Qed.

Lemma main_loop_past_script script : forall n h,
  Forall (fun i => stops so i = false) script ->
  snd (main_loop w so show (length script + n) script h) =
    snd (main_loop w so show (length script) script h) ++
    concat (repeat eof_round n).
Proof.
  induction script as [ | item rest IH]; intros n h Hscript.
  - cbn [length Nat.add]. now rewrite main_loop_at_eof.
  - apply Forall_cons in Hscript. destruct Hscript as [Hitem Hrest].
    cbn [length Nat.add].
    rewrite !(main_loop_continues _ item rest h Hitem). cbn [snd].
    rewrite (IH n _ Hrest). now rewrite app_comm_cons, !app_assoc.
Qed.

(** X8.  At the end of the input the driver does not stop.  [input] raises
    [EOFError], the loop's handler prints it as an error and the loop asks
    again: once a script without [quit] or interrupt is used up, every
    further round consists of the prompt and the line "Error: EOF when
    reading a line", without end, and the engine is not run again. *)
Theorem X8_driver_spins_at_end_of_input (script : list Input) (n : nat) :
  Forall (fun i => stops so i = false) script ->
  snd (main w so show (length script + n) script) =
    snd (main w so show (length script) script) ++
    concat (repeat eof_round n) /\
  fst (main w so show (length script + n) script) = StillRunning /\
  queries_run (concat (repeat eof_round n)) = [].
Proof.
  intros Hscript. split; [ | split ].
  - unfold main.
    pose proof (main_loop_past_script script n [] Hscript) as E.
    destruct (main_loop w so show (length script + n) script []) as [s1 t1].
    destruct (main_loop w so show (length script) script []) as [s2 t2].
    cbn [snd] in *. now rewrite E, app_assoc.
  - unfold main.
    destruct (main_loop_never_exits (length script + n) script [] Hscript)
      as [Hs _].
    now destruct (main_loop w so show (length script + n) script []).
  - induction n as [ | n IH]; [ reflexivity | exact IH ].
Qed.

End Driver.

Lemma X5_driver_runs_only_real_questions_witness :
  let script := [Line "   "; Line " What now? "; Line " QUIT "; Line "late"] in
  queries_run (snd (main stub_world sample_str_ops sample_show 9 script)) =
    ["What now?"] /\
  "What now?" <> EmptyString /\
  str_lower sample_str_ops "What now?" <> "quit".
Proof.
  cbv zeta.
  assert (Hq : queries_run
                 (snd (main stub_world sample_str_ops sample_show 9
                         [Line "   "; Line " What now? "; Line " QUIT ";
                          Line "late"])) = ["What now?"])
    by (vm_compute; reflexivity).
  split; [ exact Hq | ].
  destruct (X5_driver_runs_only_real_questions stub_world sample_str_ops
              sample_show 9
              [Line "   "; Line " What now? "; Line " QUIT "; Line "late"]
              "What now?") as (Hne & Hnq & _).
  - rewrite Hq. left. reflexivity.
  - split; assumption.
Defined.

Lemma X6_driver_exits_at_first_stop_witness :
  let run := main stub_world sample_str_ops sample_show 9
               ([Line "   "; EndOfFile] ++ Line " QUIT " :: [Line "late"]) in
  fst run = Exited /\
  inputs_read (snd run) = [Line "   "; EndOfFile] ++ [Line " QUIT "].
Proof.
  destruct (X6_driver_exits_at_first_stop stub_world sample_str_ops
              sample_show 9 [Line "   "; EndOfFile] [Line "late"]
              (Line " QUIT ")) as (_ & Hexit & Hread).
  - repeat constructor.
  - reflexivity.
  - simpl. lia.
  - split; [ exact Hexit | exact Hread ].
Defined.


Lemma X8_driver_spins_at_end_of_input_witness :
  snd (main stub_world sample_str_ops sample_show (length [Line "   "] + 2)
         [Line "   "]) =
    snd (main stub_world sample_str_ops sample_show (length [Line "   "])
           [Line "   "]) ++
    [DInput input_prompt EndOfFile; DPrint (error_notice eof_message);
     DInput input_prompt EndOfFile; DPrint (error_notice eof_message)].
Proof.
  apply (X8_driver_spins_at_end_of_input stub_world sample_str_ops
           sample_show [Line "   "] 2).
  repeat constructor.
Defined.





(** * The tools of the risk assessor *)

Lemma dict_get_insert {V} (d : gmap string V) key key' v default :
  dict_get (<[key := v]> d) key' default =
    if String.eqb key key' then v else dict_get d key' default.
Proof.
  unfold dict_get. destruct (String.eqb_spec key key') as [-> | Hne].
  - now rewrite lookup_insert_eq.
  - now rewrite lookup_insert_ne.
Qed.

Lemma dict_get_empty {V} key (default : V) : dict_get ∅ key default = default.
Proof. unfold dict_get. now rewrite lookup_empty. Qed.

(** A tolerance counts as at least medium unless it is [low]. *)
Lemma tolerance_score_bold (k : string) :
  (2 <=? dict_get risk_scores k 2)%Z = negb (String.eqb k "low").
Proof.
  unfold risk_scores. rewrite !dict_get_insert, dict_get_empty.
  destruct (String.eqb_spec "high" k) as [<- | _]; [ reflexivity | ].
  destruct (String.eqb_spec "medium" k) as [<- | _]; [ reflexivity | ].
  rewrite (String.eqb_sym k "low").
  now destruct (String.eqb "low" k).
Qed.

(** X10.  [assess_investment_risk] in closed form.  When the division for
    the unused [age_factor] goes through, the tool never reports an error
    and its text is the template filled in as follows.  The tolerance
    counts only through whether its lower-case form is [low]: medium, high
    and any other word are treated alike.  The bond line shows 100 minus
    the first digit of the lower equity bound, that is 92, 94, 96 or 98,
    next to an equity allocation starting at 80, 60, 40 or 20 percent.
    The income is not used.  When the division raises, the tool returns the
    error text with that exception's message. *)
Theorem X10_risk_assessment_closed_form (fo : FloatOps) (so : StrOps)
    (age : Z) (income : float fo) (risk_tolerance : string) :
  match int_truediv fo (100 - age)%Z 100%Z with
  | Failed msg =>
      assess_investment_risk fo so age income risk_tolerance =
        "Risk assessment error: " +:+ msg
  | Done _ =>
      let bold := negb (String.eqb (str_lower so risk_tolerance) "low") in
      let band :=
        if (age <? 30)%Z && bold then
          ("Aggressive", "80-90%", "92")
        else if (age <? 50)%Z && bold then
          ("Moderate to Aggressive", "60-80%", "94")
        else if (age <? 65)%Z then
          ("Moderate", "40-60%", "96")
        else
          ("Conservative", "20-40%", "98") in
      let text :=
        risk_assessment_text (str_of_int age)
          (str_title so risk_tolerance) (fst (fst band)) (snd (fst band))
          (snd band) (str_of_int (65 - age)%Z) in
      assess_investment_risk fo so age income risk_tolerance =
        if (age <? 35)%Z then text +:+ young_investor_tip
        else if (55 <? age)%Z then text +:+ pre_retirement_tip
        else text
  end.
Proof.
  unfold assess_investment_risk, assess_investment_risk_body.
  destruct (int_truediv fo (100 - age)%Z 100%Z) as [f | msg];
    [ | reflexivity ].
  cbn [and_then]. cbv zeta. unfold risk_recommendation.
  rewrite tolerance_score_bold.
  destruct (negb (String.eqb (str_lower so risk_tolerance) "low"));
    destruct (age <? 30)%Z; destruct (age <? 50)%Z; destruct (age <? 65)%Z;
    reflexivity.
Qed.

(** X11.  What the recommendation depends on: a tolerance other than [low]
    gives the recommendation of [high]; the tolerance [low] never gives
    more than "Moderate"; and from the age of 50 on the tolerance plays no
    role at all. *)
Theorem X11_risk_recommendation_tolerance (so : StrOps) (age : Z)
    (risk_tolerance : string) :
  let score := dict_get risk_scores (str_lower so risk_tolerance) 2%Z in
  (str_lower so risk_tolerance <> "low" ->
   risk_recommendation age score = risk_recommendation age 3) /\
  (str_lower so risk_tolerance = "low" ->
   risk_recommendation age score =
     if (age <? 65)%Z then ("Moderate", "40-60%")
     else ("Conservative", "20-40%")) /\
  ((50 <= age)%Z ->
   forall other : Z,
     risk_recommendation age score = risk_recommendation age other).
Proof.
  cbv zeta. unfold risk_recommendation.
  rewrite tolerance_score_bold. repeat split.
  - intros Hne. apply String.eqb_neq in Hne. now rewrite Hne.
  - intros ->. cbn. now rewrite !andb_false_r.
  - intros Hage other.
    assert (H30 : (age <? 30)%Z = false) by (apply Z.ltb_ge; lia).
    assert (H50 : (age <? 50)%Z = false) by (apply Z.ltb_ge; lia).
    now rewrite H30, H50.
Qed.

Lemma X11_risk_recommendation_tolerance_witness :
  risk_recommendation 25
    (dict_get risk_scores (str_lower sample_str_ops "Whatever") 2%Z) =
    ("Aggressive", "80-90%") /\
  risk_recommendation 25
    (dict_get risk_scores (str_lower sample_str_ops "LOW") 2%Z) =
    ("Moderate", "40-60%") /\
  risk_recommendation 70
    (dict_get risk_scores (str_lower sample_str_ops "high") 2%Z) =
    risk_recommendation 70 1.
Proof.
  destruct (X11_risk_recommendation_tolerance sample_str_ops 25 "Whatever")
    as (H1 & _ & _).
  destruct (X11_risk_recommendation_tolerance sample_str_ops 25 "LOW")
    as (_ & H2 & _).
  destruct (X11_risk_recommendation_tolerance sample_str_ops 70 "high")
    as (_ & _ & H3).
  split; [ | split ].
  - rewrite H1; [ reflexivity | discriminate ].
  - rewrite H2; reflexivity.
  - apply H3. lia.
Defined.

Lemma stability_multiplier_cases (k : string) :
  dict_get stability_multipliers k 6%Z =
    if String.eqb k "stable" then 3%Z
    else if String.eqb k "unstable" then 9%Z
    else 6%Z.
Proof.
  unfold stability_multipliers. rewrite !dict_get_insert, dict_get_empty.
  rewrite (String.eqb_sym k "stable"), (String.eqb_sym k "unstable").
  destruct (String.eqb_spec "unstable" k) as [<- | _]; [ reflexivity | ].
  destruct (String.eqb_spec "moderate" k) as [<- | _]; [ reflexivity | ].
  reflexivity.
Qed.

(** X12.  [calculate_emergency_fund] never reports an error.  It
    recommends the monthly expenses times 3 when the lower-case stability
    is [stable], times 9 when it is [unstable], and times 6 for
    [moderate] and for every other word, the empty one included. *)
Theorem X12_emergency_fund_closed_form (fo : FloatOps) (so : StrOps)
    (monthly_expenses : float fo) (job_stability : string) :
  let months :=
    if String.eqb (str_lower so job_stability) "stable" then 3%Z
    else if String.eqb (str_lower so job_stability) "unstable" then 9%Z
    else 6%Z in
  calculate_emergency_fund fo so monthly_expenses job_stability =
    emergency_fund_text
      (format_float fo ",.2f" monthly_expenses)
      (str_title so job_stability)
      (format_float fo ",.2f"
         (float_mul fo monthly_expenses (float_of_int fo months)))
      (str_of_int months).
Proof.
  cbv zeta.
  unfold calculate_emergency_fund, calculate_emergency_fund_body.
  cbv zeta. rewrite stability_multiplier_cases. reflexivity.
Qed.

(** * The tools that ask the market data provider *)

(** The guarded percentage never raises. *)
Lemma percent_change_done {fo} (change base : float fo) :
  percent_change change base =
    Done (if float_is_zero fo base then NInt 0%Z
          else num_mul (NFloat (float_div fo change base)) (NInt 100%Z)).
Proof.
  unfold percent_change, num_div.
  destruct (float_is_zero fo base); reflexivity.
Qed.

(** X13.  [get_stock_price] asks for the history of one day and then reads
    the close before the last one.  When the history has exactly one row
    there is none: whatever the rest of the data, the tool returns the
    error text with the message of the [IndexError], not a price. *)
Theorem X13_stock_price_fails_on_one_row (fo : FloatOps) (so : StrOps)
    (yf : Provider fo) (symbol : string)
    (info : gmap string (info_value yf)) (close : float fo) :
  ticker_info yf 0 symbol = Done info ->
  ticker_closes yf 1 symbol "1d" = Done [close] ->
  get_stock_price fo so yf symbol =
    "Error getting stock data for " +:+ symbol +:+ ": " +:+ iloc_message.
Proof.
  intros Hinfo Hcloses. unfold get_stock_price, get_stock_price_body.
  rewrite Hinfo. cbn [and_then]. rewrite Hcloses. reflexivity.
Qed.

Lemma X13_stock_price_fails_on_one_row_witness :
  get_stock_price sample_float_ops sample_str_ops (sample_provider [150%Z])
    "AAPL" =
  "Error getting stock data for AAPL: single positional indexer is out-of-bounds".
Proof.
  apply (X13_stock_price_fails_on_one_row sample_float_ops sample_str_ops
           (sample_provider [150%Z]) "AAPL" ∅ 150%Z); reflexivity.
Defined.

(** X14.  The other outcomes of [get_stock_price].  If reading [info]
    raises, the tool returns the error text with that message, whatever the
    history would be; with [info] read, a request for the history that
    raises gives the error text too, and an empty history gives "No data
    found for" the symbol.  With two rows or more the tool shows the last
    close and its change against the close before it, unless the market
    capitalisation cannot be formatted with thousands separators, which
    again gives the error text. *)
Theorem X14_stock_price_outcomes (fo : FloatOps) (so : StrOps)
    (yf : Provider fo) (symbol : string) :
  (forall msg,
     ticker_info yf 0 symbol = Failed msg ->
     get_stock_price fo so yf symbol =
       "Error getting stock data for " +:+ symbol +:+ ": " +:+ msg) /\
  (forall info msg,
     ticker_info yf 0 symbol = Done info ->
     ticker_closes yf 1 symbol "1d" = Failed msg ->
     get_stock_price fo so yf symbol =
       "Error getting stock data for " +:+ symbol +:+ ": " +:+ msg) /\
  (forall info,
     ticker_info yf 0 symbol = Done info ->
     ticker_closes yf 1 symbol "1d" = Done [] ->
     get_stock_price fo so yf symbol = "No data found for " +:+ symbol) /\
  (forall info older previous current,
     ticker_info yf 0 symbol = Done info ->
     ticker_closes yf 1 symbol "1d" = Done (older ++ [previous; current]) ->
     let change := float_sub fo current previous in
     let change_percentage :=
       if float_is_zero fo previous then NInt 0%Z
       else num_mul (NFloat (float_div fo change previous)) (NInt 100%Z) in
     get_stock_price fo so yf symbol =
       match value_commas yf
               (dict_get info "marketCap" (value_of_int yf 0%Z)) with
       | Failed msg =>
           "Error getting stock data for " +:+ symbol +:+ ": " +:+ msg
       | Done cap =>
           stock_price_text
             (str_upper so symbol)
             (value_str yf
                (dict_get info "longName" (value_of_str yf "N/A")))
             (format_float fo ".2f" current)
             (format_float fo ".2f" change)
             (num_format ".2f" change_percentage)
             cap
             (value_str yf
                (dict_get info "trailingPE" (value_of_str yf "N/A")))
             (value_str yf
                (dict_get info "fiftyTwoWeekHigh" (value_of_str yf "N/A")))
             (value_str yf
                (dict_get info "fiftyTwoWeekLow" (value_of_str yf "N/A")))
       end).
Proof.
  unfold get_stock_price, get_stock_price_body. repeat split.
  - intros msg ->. reflexivity.
  - intros info msg -> ->. reflexivity.
  - intros info -> ->. reflexivity.
  - intros info older previous current -> ->. cbn [and_then].
    assert (Hne : frame_empty (older ++ [previous; current]) = false)
      by now destruct older.
    rewrite Hne. unfold iloc_from_end.
    rewrite rev_app_distr. cbn [rev app nth_error and_then].
    rewrite percent_change_done. cbn [and_then].
    destruct (value_commas yf _); reflexivity.
Qed.

Lemma X14_stock_price_outcomes_witness :
  get_stock_price sample_float_ops sample_str_ops (sample_provider [])
    "AAPL" = "No data found for AAPL" /\
  get_stock_price sample_float_ops sample_str_ops
    (sample_provider [100%Z; 150%Z]) "aapl" =
  stock_price_text "aapl" "N/A" "150" "50" "0" "0" "N/A" "N/A" "N/A".
Proof.
  destruct (X14_stock_price_outcomes sample_float_ops sample_str_ops
              (sample_provider []) "AAPL") as (_ & _ & Hnone & _).
  destruct (X14_stock_price_outcomes sample_float_ops sample_str_ops
              (sample_provider [100%Z; 150%Z]) "aapl") as (_ & _ & _ & Htwo).
  split.
  - apply (Hnone ∅); reflexivity.
  - rewrite (Htwo ∅ [] 100%Z 150%Z); reflexivity.
Defined.

Lemma index_line_report (fo : FloatOps) (yf : Provider fo) (n : nat)
    (symbol name : string) :
  index_line fo yf n symbol name = index_report fo yf n symbol name.
Proof.
  unfold index_line, index_line_body, index_report.
  destruct (ticker_closes yf n symbol "2d") as [history | msg];
    [ | reflexivity ].
  cbn [and_then]. unfold iloc_from_end.
  rewrite <- (length_rev history).
  assert (Hempty : frame_empty history = frame_empty (rev history)).
  { destruct history as [ | x history]; [ reflexivity | ].
    cbn [rev]. now destruct (rev history). }
  rewrite Hempty.
  destruct (rev history) as [ | current [ | previous older]];
    [ reflexivity | | ].
  - cbn. rewrite percent_change_done. reflexivity.
  - cbn. rewrite percent_change_done. reflexivity.
Qed.

Lemma market_overview_lines (fo : FloatOps) (yf : Provider fo) :
  get_market_overview fo yf =
    ((("Market Overview:" +:+ NL +:+ NL) +:+
      index_report fo yf 0 "^GSPC" "S&P 500") +:+
     index_report fo yf 1 "^DJI" "Dow Jones") +:+
    index_report fo yf 2 "^IXIC" "NASDAQ".
Proof.
  unfold get_market_overview, get_market_overview_body. cbv zeta.
  unfold indices. cbn [overview_loop].
  now rewrite !index_line_report.
Qed.

(** X15.  [get_market_overview] never reports an error of its own.  Its
    text is the header followed by what the three indices contribute, in
    the order S&P 500, Dow Jones, NASDAQ: an index whose request raised
    contributes the line "Data unavailable"; an index whose history is
    empty contributes nothing at all; an index with a single row is shown
    with its close compared to itself; otherwise the last close is compared
    to the one before it. *)
Theorem X15_market_overview_closed_form (fo : FloatOps) (yf : Provider fo) :
  get_market_overview fo yf =
    ((("Market Overview:" +:+ NL +:+ NL) +:+
      index_report fo yf 0 "^GSPC" "S&P 500") +:+
     index_report fo yf 1 "^DJI" "Dow Jones") +:+
    index_report fo yf 2 "^IXIC" "NASDAQ".
Proof. apply market_overview_lines. Qed.

(** X16.  When every history is empty [get_market_overview] returns the
    bare header, with no word about the missing indices; when every request
    raises it returns the header and the three "Data unavailable" lines. *)
Theorem X16_market_overview_without_data (fo : FloatOps) (yf : Provider fo) :
  ((forall n symbol, ticker_closes yf n symbol "2d" = Done []) ->
   get_market_overview fo yf = "Market Overview:" +:+ NL +:+ NL) /\
  ((forall n symbol, exists msg,
      ticker_closes yf n symbol "2d" = Failed msg) ->
   get_market_overview fo yf =
     "Market Overview:" +:+ NL +:+ NL +:+
     "S&P 500: Data unavailable" +:+ NL +:+
     "Dow Jones: Data unavailable" +:+ NL +:+
     "NASDAQ: Data unavailable" +:+ NL).
Proof.
  rewrite market_overview_lines. unfold index_report. split.
  - intros Hempty. rewrite !Hempty. reflexivity.
  - intros Hfail.
    destruct (Hfail 0 "^GSPC") as [m0 ->].
    destruct (Hfail 1 "^DJI") as [m1 ->].
    destruct (Hfail 2 "^IXIC") as [m2 ->].
    reflexivity.
Qed.

Lemma X16_market_overview_without_data_witness :
  get_market_overview sample_float_ops (sample_provider []) =
    "Market Overview:" +:+ NL +:+ NL.
Proof.
  apply (X16_market_overview_without_data sample_float_ops
           (sample_provider [])).
  reflexivity.
Defined.

(** * The tools of the budget planner *)

Lemma unpack_pair_fails (parts : list string) :
  length parts <> 2 -> exists msg, unpack_pair parts = Failed msg.
Proof.
  intros Hlen. destruct parts as [ | a [ | b [ | c parts]]]; cbn in *;
    try (eexists; reflexivity). lia.
Qed.

Lemma parse_expenses_fails (fo : FloatOps) (so : StrOps) (items : list string) :
  forall expense_dict,
    (exists item, In item items /\ length (split_on ":" item) <> 2) ->
    exists msg, parse_expenses fo so items expense_dict = Failed msg.
Proof.
  induction items as [ | first items IH]; intros expense_dict (item & Hin & Hbad).
  - destruct Hin.
  - cbn [parse_expenses]. destruct Hin as [-> | Hin].
    + destruct (unpack_pair_fails _ Hbad) as [msg ->]. now exists msg.
    + destruct (unpack_pair (split_on ":" first)) as [[category amount] | msg];
        [ | now exists msg ].
      cbn [and_then].
      destruct (float_of_str fo (str_strip so amount)) as [value | msg];
        [ | now exists msg ].
      cbn [and_then]. apply IH. now exists item.
Qed.

(** X17.  [analyze_budget] guards the savings rate and the breakdown
    against an income that is not positive, but divides the essential
    expenses by the income without a guard: for an income of zero it
    returns the error text, whatever the expenses are. *)
Theorem X17_budget_of_zero_income_is_an_error (fo : FloatOps) (so : StrOps)
    (income : float fo) (expenses : string) :
  float_is_zero fo income = true ->
  exists msg,
    analyze_budget fo so income expenses = "Budget analysis error: " +:+ msg.
Proof.
  intros Hzero. unfold analyze_budget, analyze_budget_body.
  destruct (parse_expenses fo so (split_on "," expenses) [])
    as [expense_dict | msg]; [ | now exists msg ].
  cbn [and_then].
  destruct (share_of_income _ income) as [savings_rate | msg];
    [ | now exists msg ].
  cbn [and_then]. cbv zeta.
  destruct (expense_breakdown fo so income expense_dict _)
    as [analysis | msg]; [ | now exists msg ].
  cbn [and_then]. unfold num_div. rewrite Hzero.
  now exists (zero_division fo).
Qed.

Lemma X17_budget_of_zero_income_is_an_error_witness :
  exists msg,
    analyze_budget sample_float_ops sample_str_ops 0%Z
      "rent:1000, food:300" = "Budget analysis error: " +:+ msg.
Proof.
  apply (X17_budget_of_zero_income_is_an_error sample_float_ops
           sample_str_ops 0%Z "rent:1000, food:300").
  reflexivity.
Defined.

(** X18.  Every item of the comma-separated expenses must be one category
    and one amount around a single colon.  If one item is not, an empty
    one after a trailing comma included, [analyze_budget] returns the error
    text and no analysis; so it does for the empty string of expenses. *)
Theorem X18_budget_rejects_malformed_items (fo : FloatOps) (so : StrOps)
    (income : float fo) (expenses : string) :
  ((exists item,
      In item (split_on "," expenses) /\
      length (split_on ":" item) <> 2) ->
   exists msg,
     analyze_budget fo so income expenses =
       "Budget analysis error: " +:+ msg) /\
  (exists msg,
     analyze_budget fo so income EmptyString =
       "Budget analysis error: " +:+ msg).
Proof.
  split.
  - intros Hbad. unfold analyze_budget, analyze_budget_body.
    destruct (parse_expenses_fails fo so _ [] Hbad) as [msg ->].
    now exists msg.
  - eexists. reflexivity.
Qed.

Lemma X18_budget_rejects_malformed_items_witness :
  exists msg,
    analyze_budget sample_float_ops sample_str_ops 5000%Z
      "rent:1000,food:300," = "Budget analysis error: " +:+ msg.
Proof.
  apply (proj1 (X18_budget_rejects_malformed_items sample_float_ops
                  sample_str_ops 5000%Z "rent:1000,food:300,")).
  exists EmptyString. split; [ | vm_compute; lia ].
  vm_compute. right. right. left. reflexivity.
Defined.

(** * The portfolio tool *)

Lemma parse_amounts_length (fo : FloatOps) (so : StrOps) (items : list string) :
  forall amounts_list,
    parse_amounts fo so items = Done amounts_list ->
    length amounts_list = length items.
Proof.
  induction items as [ | a items IH]; intros amounts_list; cbn [parse_amounts].
  - intros [= <-]. reflexivity.
  - destruct (float_of_str fo (str_strip so a)) as [x | msg];
      [ | discriminate ].
    cbn [and_then].
    destruct (parse_amounts fo so items) as [rest | msg]; [ | discriminate ].
    cbn [and_then]. intros [= <-]. cbn. now rewrite (IH rest).
Qed.

Lemma build_portfolio_length (fo : FloatOps) (so : StrOps) (yf : Provider fo)
    (total_value : num fo) (pairs : list (string * float fo)) :
  forall n portfolio_data,
    build_portfolio fo so yf n total_value pairs = Done portfolio_data ->
    length portfolio_data = length pairs.
Proof.
  induction pairs as [ | [symbol amount] pairs IH]; intros n portfolio_data;
    cbn [build_portfolio].
  - intros [= <-]. reflexivity.
  - destruct (ticker_info yf n (str_upper so symbol)) as [info | msg];
      [ | discriminate ].
    cbn [and_then].
    destruct (num_div (NFloat amount) (to_float total_value)) as [ratio | msg];
      [ | discriminate ].
    cbn [and_then].
    destruct (build_portfolio fo so yf (S n) total_value pairs)
      as [others | msg] eqn:E; [ | discriminate ].
    cbn [and_then]. intros [= <-]. cbn. now rewrite (IH (S n) others E).
Qed.

Lemma distinct_values_length {fo} (yf : Provider fo)
    (values : list (info_value yf)) :
  length (distinct_values yf values) <= length values.
Proof.
  unfold distinct_values.
  assert (H : forall seen,
            length (fold_left
                      (fun seen v =>
                         if existsb (value_eqb yf v) seen then seen
                         else seen ++ [v]) values seen)
            <= length seen + length values).
  { induction values as [ | v values IH]; intros seen; cbn [fold_left length].
    - lia.
    - destruct (existsb (value_eqb yf v) seen).
      + specialize (IH seen). lia.
      + specialize (IH (seen ++ [v])). rewrite length_app in IH.
        cbn in IH. lia. }
  apply (H []).
Qed.

Lemma filter_length_le {A} (f : A -> bool) (l : list A) :
  length (List.filter f l) <= length l.
Proof.
  induction l as [ | x l IH]; cbn; [ lia | ].
  destruct (f x); cbn; lia.
Qed.

Lemma split_on_not_nil (sep : ascii) (s : string) : split_on sep s <> [].
Proof.
  destruct s as [ | c s]; cbn; [ discriminate | ].
  destruct (Ascii.eqb c sep); [ discriminate | ].
  destruct (split_on sep s); discriminate.
Qed.

(** X19.  The amounts are parsed before the two lists are compared: if an
    amount is not a number the tool returns its error text, also when the
    numbers of stocks and amounts differ; if all amounts are numbers and
    there are not as many of them as stocks, it returns the mismatch
    notice. *)
Theorem X19_portfolio_checks_amounts_first (fo : FloatOps) (so : StrOps)
    (yf : Provider fo) (stocks amounts : string) :
  (forall msg,
     parse_amounts fo so (split_on "," amounts) = Failed msg ->
     analyze_portfolio fo so yf stocks amounts =
       "Portfolio analysis error: " +:+ msg) /\
  (forall amounts_list,
     parse_amounts fo so (split_on "," amounts) = Done amounts_list ->
     length (split_on "," stocks) <> length (split_on "," amounts) ->
     analyze_portfolio fo so yf stocks amounts = mismatch_notice).
Proof.
  unfold analyze_portfolio, analyze_portfolio_body. split.
  - intros msg ->. reflexivity.
  - intros amounts_list Hparse Hlen. rewrite Hparse. cbn [and_then].
    rewrite length_map, (parse_amounts_length _ _ _ _ Hparse).
    apply Nat.eqb_neq in Hlen. now rewrite Hlen.
Qed.

Lemma X19_portfolio_checks_amounts_first_witness :
  analyze_portfolio sample_float_ops sample_str_ops (sample_provider [])
    "AAPL,MSFT" "100" = mismatch_notice /\
  exists msg,
    analyze_portfolio sample_float_ops sample_str_ops (sample_provider [])
      "AAPL,MSFT" "a lot" = "Portfolio analysis error: " +:+ msg.
Proof.
  destruct (X19_portfolio_checks_amounts_first sample_float_ops
              sample_str_ops (sample_provider []) "AAPL,MSFT" "100")
    as (_ & Hmismatch).
  destruct (X19_portfolio_checks_amounts_first sample_float_ops
              sample_str_ops (sample_provider []) "AAPL,MSFT" "a lot")
    as (Herror & _).
  split.
  - apply (Hmismatch [100%Z]); [ reflexivity | vm_compute; lia ].
  - eexists. apply Herror. reflexivity.
Defined.

(** X20.  A portfolio of one or two positions cannot reach three sectors:
    whenever [analyze_portfolio] produces an analysis for fewer than
    three stocks, the analysis ends with the diversification warning. *)
Theorem X20_small_portfolio_always_warned (fo : FloatOps) (so : StrOps)
    (yf : Provider fo) (stocks amounts : string) :
  length (split_on "," stocks) < 3 ->
  analyze_portfolio fo so yf stocks amounts = mismatch_notice \/
  (exists msg,
     analyze_portfolio fo so yf stocks amounts =
       "Portfolio analysis error: " +:+ msg) \/
  (exists analysis,
     analyze_portfolio fo so yf stocks amounts =
       analysis +:+ diversification_warning).
Proof.
  intros Hfew. unfold analyze_portfolio, analyze_portfolio_body.
  destruct (parse_amounts fo so (split_on "," amounts))
    as [amounts_list | msg]; [ | right; left; now exists msg ].
  cbn [and_then].
  destruct (negb (length (map (str_strip so) (split_on "," stocks))
                  =? length amounts_list)%nat); [ now left | ].
  destruct (build_portfolio fo so yf 0 _ _) as [portfolio_data | msg] eqn:E;
    [ | right; left; now exists msg ].
  right. right. cbn [and_then]. cbv zeta.
  apply build_portfolio_length in E.
  assert (Hdata : length portfolio_data < 3).
  { rewrite E. rewrite length_combine, length_map. lia. }
  match goal with
  | |- context [ (length (distinct_values yf ?l) <? 3)%nat ] =>
      assert (Hd : (length (distinct_values yf l) <? 3)%nat = true)
  end.
  { apply Nat.ltb_lt.
    eapply Nat.le_lt_trans; [ apply distinct_values_length | ].
    eapply Nat.le_lt_trans; [ apply filter_length_le | ].
    now rewrite length_map. }
  rewrite Hd. eexists. reflexivity.
Qed.

Lemma X20_small_portfolio_always_warned_witness :
  exists analysis,
    analyze_portfolio sample_float_ops sample_str_ops (sample_provider [])
      "aapl, msft" "100,300" = analysis +:+ diversification_warning.
Proof.
  destruct (X20_small_portfolio_always_warned sample_float_ops
              sample_str_ops (sample_provider []) "aapl, msft" "100,300")
    as [H | [[msg H] | H]].
  - vm_compute. lia.
  - vm_compute in H. discriminate.
  - vm_compute in H. discriminate.
  - exact H.
Defined.

(** X21.  The weights are the amounts divided by their sum without a
    guard: when the amounts are numbers, as many as the stocks, and sum to
    zero, [analyze_portfolio] returns its error text. *)
Theorem X21_portfolio_of_total_zero_is_an_error (fo : FloatOps)
    (so : StrOps) (yf : Provider fo) (stocks amounts : string)
    (amounts_list : list (float fo)) :
  parse_amounts fo so (split_on "," amounts) = Done amounts_list ->
  length (split_on "," stocks) = length (split_on "," amounts) ->
  float_is_zero fo (to_float (num_sum (map NFloat amounts_list))) = true ->
  exists msg,
    analyze_portfolio fo so yf stocks amounts =
      "Portfolio analysis error: " +:+ msg.
Proof.
  intros Hparse Hlen Hzero. unfold analyze_portfolio, analyze_portfolio_body.
  rewrite Hparse. cbn [and_then].
  pose proof (parse_amounts_length _ _ _ _ Hparse) as Hal.
  rewrite length_map, Hal, Hlen, Nat.eqb_refl. cbn [negb].
  pose proof (split_on_not_nil "," stocks) as Hs.
  destruct (split_on "," stocks) as [ | symbol stock_list]; [ congruence | ].
  destruct amounts_list as [ | amount amounts_list];
    [ cbn in Hal, Hlen; lia | ].
  cbn [map combine build_portfolio].
  destruct (ticker_info yf 0 (str_upper so (str_strip so symbol)))
    as [info | msg]; [ | now exists msg ].
  cbn [and_then]. unfold num_div. cbn [map] in Hzero. rewrite Hzero.
  cbn [and_then]. now exists (zero_division fo).
Qed.

Lemma X21_portfolio_of_total_zero_is_an_error_witness :
  exists msg,
    analyze_portfolio sample_float_ops sample_str_ops (sample_provider [])
      "AAPL,MSFT" "0,0" = "Portfolio analysis error: " +:+ msg.
Proof.
  apply (X21_portfolio_of_total_zero_is_an_error sample_float_ops
           sample_str_ops (sample_provider []) "AAPL,MSFT" "0,0"
           [0%Z; 0%Z]); reflexivity.
Defined.
